(** * drlfoam: the example training driver [examples/run_training.py]

    The driver is a single-threaded script that sequences calls to external
    collaborators (the file system, the logging module, the [drlfoam]
    environment, buffer and agent classes).  It is embedded as a finite
    interaction tree: every call that leaves the script is a node [Vis] whose
    continuation receives the answer; an answer may also be an exception, which
    then propagates because [main] contains no [try].  The claims of the
    specification are statements about the traces of that tree under every
    possible behaviour of the collaborators. *)

From Stdlib Require Import ZArith List String Ascii Bool Lia.
From Stdlib Require Import DecimalString DecimalZ DecimalPos FinFun.
Import ListNotations.

Local Open Scope string_scope.
Local Open Scope Z_scope.

(** ** Python strings and paths *)

Module PyStr.

Definition nl : string := String (ascii_of_nat 10) EmptyString.

(** [str(n)] for a Python [int]. *)
Definition str_int (n : Z) : string := NilZero.string_of_int (Z.to_int n).

(** [str.lower] on one ASCII character. *)
Definition lower_ascii (c : ascii) : ascii :=
  let n := nat_of_ascii c in
  if andb (Nat.leb 65 n) (Nat.leb n 90) then ascii_of_nat (n + 32) else c.

(** [s.lower()].  Strings are sequences of ASCII characters; a character
    outside 'A'-'Z' is left as it is. *)
Fixpoint lower (s : string) : string :=
  match s with
  | EmptyString => EmptyString
  | String c s' => String (lower_ascii c) (lower s')
  end.

(** [sep.join(l)]. *)
Fixpoint str_join (sep : string) (l : list string) : string :=
  match l with
  | [] => ""
  | [x] => x
  | x :: rest => x ++ sep ++ str_join sep rest
  end.

Definition startswith_sep (s : string) : bool :=
  match s with
  | String "/" _ => true
  | _ => false
  end.

Fixpoint endswith_sep (s : string) : bool :=
  match s with
  | EmptyString => false
  | String c EmptyString => Ascii.eqb c "/"
  | String _ s' => endswith_sep s'
  end.

(** One round of the loop of [posixpath.join]. *)
Definition join_step (path b : string) : string :=
  if startswith_sep b then b
  else if orb (String.eqb path "") (endswith_sep path) then path ++ b
  else path ++ "/" ++ b.

(** [os.path.join(a, *p)] with at least one component in [p]. *)
Definition join (a : string) (p : list string) : string :=
  fold_left join_step p a.

(** Truth value of a string: [if s:]. *)
Definition truthy (s : string) : bool := negb (String.eqb s "").

End PyStr.
Import PyStr.

(** ** Module-level tables *)

Inductive env_class := RotatingCylinder2D | RotatingPinball2D.

Definition SIMULATION_ENVIRONMENTS : list (string * env_class) :=
  [ ("rotatingCylinder2D", RotatingCylinder2D);
    ("rotatingPinball2D", RotatingPinball2D) ].

Inductive activation := relu.

Record net_dict := {
  n_layers : Z;
  n_neurons : Z;
  activation_fn : activation
}.

(** The keyword arguments handed to [PPOAgent]; a learning rate is kept as the
    literal of the source. *)
Record agent_config := {
  policy_dict : net_dict;
  value_dict : net_dict;
  policy_lr : option string;
  value_lr : option string
}.

Definition DEFAULT_CONFIG : list (string * agent_config) :=
  [ ("rotatingCylinder2D",
     {| policy_dict := {| n_layers := 2; n_neurons := 64; activation_fn := relu |};
        value_dict := {| n_layers := 2; n_neurons := 64; activation_fn := relu |};
        policy_lr := None;
        value_lr := None |});
    ("rotatingPinball2D",
     {| policy_dict := {| n_layers := 2; n_neurons := 512; activation_fn := relu |};
        value_dict := {| n_layers := 2; n_neurons := 512; activation_fn := relu |};
        policy_lr := Some "4.0e-4";
        value_lr := Some "4.0e-4" |}) ].

(** [d.keys()] and [d[k]] of an insertion-ordered dictionary. *)
Definition keys {V} (d : list (string * V)) : list string := map fst d.

Fixpoint getitem {V} (d : list (string * V)) (k : string) : option V :=
  match d with
  | [] => None
  | (k', v) :: d' => if String.eqb k k' then Some v else getitem d' k
  end.

Definition contains (l : list string) (k : string) : bool :=
  existsb (String.eqb k) l.

(** ** Exceptions *)

Inductive exn :=
| ValueError (msg : string)
| IndexError (msg : string)
| KeyError (msg : string)
| ZeroDivisionError (msg : string)
| OtherError (cls msg : string).

(** How a call of a function ends. *)
Inductive outcome (A : Type) : Type :=
| Returned (a : A)
| Raised (e : exn).

Arguments Returned {A} a.
Arguments Raised {A} e.

(** ** The collaborators' value types

    Floating-point numbers, tensors and the handles of the [drlfoam] objects
    are left abstract, together with the pure numeric operations that
    [print_statistics] and the final log line apply to them. *)

Class Collaborators := {
  Float : Type;
  Tensor : Type;
  Bounds : Type;
  Env : Type;
  Buffer : Type;
  Agent : Type;
  Policy : Type;
  SlurmConfig : Type;
  neg_bounds : Bounds -> Bounds;          (* -env.action_bounds *)
  tensor_mean : Tensor -> Float;          (* t.mean().item() *)
  tensor_std : Tensor -> Float;           (* t.std().item() *)
  float_sum : list Float -> Float;        (* sum(l), l non-empty *)
  float_min : list Float -> Float;        (* min(l), l non-empty *)
  float_max : list Float -> Float;        (* max(l), l non-empty *)
  float_div_int : Float -> Z -> Float;    (* x / n, n <> 0 *)
  float_sub : Float -> Float -> Float;    (* x - y *)
  format_2_4f : Float -> string;          (* f"{x:2.4f}" *)
  format_float : Float -> string          (* f"{x}" *)
}.

(** Command-line arguments as [parseArguments] returns them. *)
Record Args `{Collaborators} := {
  output : string;
  environment : string;
  iter : Z;
  runners : Z;
  buffer : Z;
  finish : Float;
  timeout : Z;
  checkpoint : string;
  simulation : string
}.

(** The arguments with another value of [--environment]. *)
Definition set_environment `{Collaborators} (args : Args) (s : string) : Args := {|
  output := output args; environment := s; iter := iter args;
  runners := runners args; buffer := buffer args; finish := finish args;
  timeout := timeout args; checkpoint := checkpoint args;
  simulation := simulation args
|}.

Section Driver.

Context `{C : Collaborators}.

(** ** Calls that leave the script *)

Inductive call : Type -> Type :=
| makedirs (path : string) (exist_ok : bool) : call unit
| exists_ (path : string) : call bool
| copytree (src dst : string) (dirs_exist_ok : bool) : call unit
| time : call Float
| logging_info (msg : string) : call unit
| logger_info (msg : string) : call unit
| check_finish_time (base_path : string) (t_end : Float) (sim : string) : call unit
| create_dummy_policy (n_states n_actions : Z) (path : string) (bounds : Bounds) : call unit
| new_env (cls : env_class) : call Env
| env_set_path (env : Env) (p : string) : call unit
| env_path (env : Env) : call string
| env_mpi_ranks (env : Env) : call Z
| env_n_states (env : Env) : call Z
| env_n_actions (env : Env) : call Z
| env_action_bounds (env : Env) : call Bounds
| env_end_time (env : Env) : call Float
| env_set_start_time (env : Env) (t : Float) : call unit
| env_set_end_time (env : Env) (t : Float) : call unit
| new_SlurmConfig (n_tasks_per_node n_nodes : Z) (time job_name : string)
    (modules commands_pre : list string) : call SlurmConfig
| new_LocalBuffer (path : string) (env : Env) (buffer_size n_runners timeout : Z) : call Buffer
| new_SlurmBuffer (path : string) (env : Env) (buffer_size n_runners : Z)
    (config : SlurmConfig) (timeout : Z) : call Buffer
| buffer_set_n_fills (b : Buffer) (n : Z) : call unit
| buffer_prepare (b : Buffer) : call unit
| buffer_base_env (b : Buffer) : call Env
| buffer_reset (b : Buffer) : call unit
| buffer_fill (b : Buffer) : call unit
| buffer_observations (b : Buffer) : call (list Tensor * list Tensor * list Tensor)
| buffer_update_policy (b : Buffer) (p : Policy) : call unit
| new_PPOAgent (n_states n_actions : Z) (lo hi : Bounds) (cfg : agent_config) : call Agent
| agent_load_state (ag : Agent) (path : string) : call unit
| agent_history_episode (ag : Agent) : call (list Z)
| agent_update (ag : Agent) (states actions rewards : list Tensor) : call unit
| agent_save_state (ag : Agent) (path : string) : call unit
| agent_trace_policy (ag : Agent) : call Policy
| policy_save (p : Policy) (path : string) : call unit.

(** ** Programs *)

Inductive prog (A : Type) : Type :=
| Ret (a : A)
| Raise (e : exn)
| Vis {R : Type} (c : call R) (k : R -> prog A).

Arguments Ret {A} a.
Arguments Raise {A} e.
Arguments Vis {A R} c k.

Fixpoint bind {A B} (p : prog A) (f : A -> prog B) : prog B :=
  match p with
  | Ret a => f a
  | Raise e => Raise e
  | Vis c k => Vis c (fun r => bind (k r) f)
  end.

Definition perform {R} (c : call R) : prog R := Vis c Ret.

Notation "x <- p ;; q" := (bind p (fun x => q))
  (at level 61, p at next level, right associativity).
Notation "p ;; q" := (bind p (fun _ => q))
  (at level 61, right associativity).

(** ** [print_statistics] *)

(** The three numbers [sum(l) / len(l)], [min(l)], [max(l)] of one message,
    formatted; the division is the first to be evaluated and raises on an
    empty list. *)
Definition mean_min_max (l : list Float) : exn + string :=
  match l with
  | [] => inl (ZeroDivisionError "division by zero")
  | _ :: _ =>
      inr (format_2_4f (float_div_int (float_sum l) (Z.of_nat (List.length l)))
           ++ "/" ++ format_2_4f (float_min l)
           ++ "/" ++ format_2_4f (float_max l))
  end.

Definition print_statistics (actions rewards : list Tensor) : prog unit :=
  let rt := map tensor_mean rewards in
  let at_mean := map tensor_mean actions in
  let at_std := map tensor_std actions in
  match mean_min_max rt with
  | inl e => Raise e
  | inr r =>
      let reward_msg := "Reward mean/min/max: " ++ r in
      match mean_min_max at_mean with
      | inl e => Raise e
      | inr m =>
          let action_mean_msg := "Mean action mean/min/max: " ++ m in
          match mean_min_max at_std with
          | inl e => Raise e
          | inr s =>
              let action_std_msg := "Std. action mean/min/max: " ++ s in
              perform (logger_info
                         (str_join nl [reward_msg; action_mean_msg; action_std_msg]))
          end
      end
  end.

(** ** [main] *)

(** [BASE_PATH = environ.get("DRL_BASE", "")], fixed when the module is loaded. *)
Variable BASE_PATH : string.

Definition unknown_simulation_msg (simulation : string) : string :=
  "Unknown simulation environment " ++ simulation
  ++ "Available options are:" ++ nl ++ nl
  ++ str_join nl (keys SIMULATION_ENVIRONMENTS) ++ nl.

Definition unknown_executer_msg (executer : string) : string :=
  "Unknown executer " ++ executer
  ++ "; available options are 'local' and 'slurm'.".

(** Lines 108-121: the training directory and the copy of the base case. *)
Definition make_base_env (training_path simulation : string) : prog Env :=
  perform (makedirs training_path true) ;;
  if negb (contains (keys SIMULATION_ENVIRONMENTS) simulation) then
    Raise (ValueError (unknown_simulation_msg simulation))
  else
    present <- perform (exists_ (join training_path ["base"])) ;;
    (if negb present then
       perform (copytree (join BASE_PATH ["openfoam"; "test_cases"; simulation])
                         (join training_path ["base"]) true)
     else Ret tt) ;;
    match getitem SIMULATION_ENVIRONMENTS simulation with
    | None => Raise (KeyError simulation)
    | Some cls =>
        env <- perform (new_env cls) ;;
        perform (env_set_path env (join training_path ["base"])) ;;
        Ret env
    end.

(** Lines 126-139: the buffer of the selected backend. *)
Definition create_buffer (executer training_path : string) (env : Env)
    (buffer_size n_runners timeout : Z) : prog Buffer :=
  if String.eqb executer "local" then
    perform (new_LocalBuffer training_path env buffer_size n_runners timeout)
  else if String.eqb executer "slurm" then
    ranks <- perform (env_mpi_ranks env) ;;
    config <- perform (new_SlurmConfig ranks 1 "03:00:00" "drl_train"
                         ["development/24.04 GCC/12.3.0"; "OpenMPI/4.1.5"; "OpenFOAM/v2312"]
                         ["source $FOAM_BASH"; "source " ++ BASE_PATH ++ "/setup-env"]) ;;
    perform (new_SlurmBuffer training_path env buffer_size n_runners config timeout)
  else
    Raise (ValueError (unknown_executer_msg executer)).

(** Lines 141-143: the PPO agent. *)
Definition create_agent (env : Env) (simulation : string) : prog Agent :=
  ns <- perform (env_n_states env) ;;
  na <- perform (env_n_actions env) ;;
  lo <- perform (env_action_bounds env) ;;
  hi <- perform (env_action_bounds env) ;;
  match getitem DEFAULT_CONFIG simulation with
  | None => Raise (KeyError simulation)
  | Some cfg => perform (new_PPOAgent ns na (neg_bounds lo) hi cfg)
  end.

(** [l[-1]]. *)
Definition last_item (l : list Z) : exn + Z :=
  match rev l with
  | [] => inl (IndexError "list index out of range")
  | k :: _ => inr k
  end.

(** Lines 145-157: resume from a checkpoint or start afresh; the result is
    [starting_episode]. *)
Definition load_checkpoint (training_path checkpoint_file : string)
    (env : Env) (buf : Buffer) (agent : Agent) : prog Z :=
  if truthy checkpoint_file then
    perform (logging_info ("Loading checkpoint from file " ++ checkpoint_file)) ;;
    perform (agent_load_state agent (join training_path [checkpoint_file])) ;;
    history <- perform (agent_history_episode agent) ;;
    match last_item history with
    | inl e => Raise e
    | inr k =>
        let starting_episode := k + 1 in
        perform (buffer_set_n_fills buf starting_episode) ;;
        Ret starting_episode
    end
  else
    let starting_episode := 0 in
    ns <- perform (env_n_states env) ;;
    na <- perform (env_n_actions env) ;;
    path <- perform (env_path env) ;;
    bounds <- perform (env_action_bounds env) ;;
    perform (create_dummy_policy ns na path bounds) ;;
    perform (buffer_prepare buf) ;;
    Ret starting_episode.

(** Lines 159-161: the simulation time window of the training phase. *)
Definition hand_off (buf : Buffer) (end_time : Float) : prog unit :=
  src <- perform (buffer_base_env buf) ;;
  t <- perform (env_end_time src) ;;
  dst <- perform (buffer_base_env buf) ;;
  perform (env_set_start_time dst t) ;;
  base <- perform (buffer_base_env buf) ;;
  perform (env_set_end_time base end_time) ;;
  perform (buffer_reset buf).

(** Lines 166-176: the body of the loop for episode [e]. *)
Definition episode (training_path : string) (episodes : Z)
    (buf : Buffer) (agent : Agent) (e : Z) : prog unit :=
  perform (logger_info ("Start of episode " ++ str_int e)) ;;
  perform (buffer_fill buf) ;;
  obs <- perform (buffer_observations buf) ;;
  let '(states, actions, rewards) := obs in
  print_statistics actions rewards ;;
  perform (agent_update agent states actions rewards) ;;
  perform (agent_save_state agent
             (join training_path ["checkpoint_" ++ str_int e ++ ".pt"])) ;;
  current_policy <- perform (agent_trace_policy agent) ;;
  perform (buffer_update_policy buf current_policy) ;;
  perform (policy_save current_policy
             (join training_path ["policy_trace_" ++ str_int e ++ ".pt"])) ;;
  if negb (e =? episodes - 1) then perform (buffer_reset buf) else Ret tt.

(** [for e in range(e, e + n)]. *)
Fixpoint for_episodes (body : Z -> prog unit) (n : nat) (e : Z) : prog unit :=
  match n with
  | O => Ret tt
  | S n' => body e ;; for_episodes body n' (e + 1)
  end.

(** Line 165: [for e in range(starting_episode, episodes)]. *)
Definition training_loop (training_path : string) (episodes : Z)
    (buf : Buffer) (agent : Agent) (starting_episode : Z) : prog unit :=
  for_episodes (episode training_path episodes buf agent)
    (Z.to_nat (episodes - starting_episode)) starting_episode.

Definition main (args : Args) : prog unit :=
  let training_path := output args in
  let episodes := iter args in
  let buffer_size := buffer args in
  let n_runners := runners args in
  let end_time := finish args in
  let executer := lower (environment args) in
  let timeout := timeout args in
  let checkpoint_file := checkpoint args in
  let simulation := simulation args in
  env <- make_base_env training_path simulation ;;
  perform (check_finish_time BASE_PATH end_time simulation) ;;
  buf <- create_buffer executer training_path env buffer_size n_runners timeout ;;
  agent <- create_agent env simulation ;;
  starting_episode <- load_checkpoint training_path checkpoint_file env buf agent ;;
  hand_off buf end_time ;;
  start_time <- perform time ;;
  training_loop training_path episodes buf agent starting_episode ;;
  now <- perform time ;;
  perform (logger_info ("Training time (s): " ++ format_float (float_sub now start_time))).

(** ** Runs and traces *)

(** One call together with what it answered. *)
Inductive event : Type :=
| Event {R : Type} (c : call R) (r : exn + R).

(** The collaborators, as a transition function over their own state [W]. *)
Definition handler (W : Type) : Type :=
  forall R : Type, call R -> W -> (exn + R) * W.

Fixpoint run {W A} (h : handler W) (p : prog A) (w : W)
  : list event * outcome A * W :=
  match p with
  | Ret a => ([], Returned a, w)
  | Raise e => ([], Raised e, w)
  | Vis c k =>
      match h _ c w with
      | (inl e, w') => ([Event c (inl e)], Raised e, w')
      | (inr r, w') =>
          let '(tr, o, w'') := run h (k r) w' in
          (Event c (inr r) :: tr, o, w'')
      end
  end.

Definition trace_of {W A} (h : handler W) (p : prog A) (w : W) : list event :=
  fst (fst (run h p w)).

Definition outcome_of {W A} (h : handler W) (p : prog A) (w : W) : outcome A :=
  snd (fst (run h p w)).

(** [sat p Q]: every run of [p], whatever the collaborators answer, has a
    trace and an outcome related by [Q]. *)
Fixpoint sat {A} (p : prog A) (Q : list event -> outcome A -> Prop) : Prop :=
  match p with
  | Ret a => Q [] (Returned a)
  | Raise e => Q [] (Raised e)
  | Vis c k =>
      (forall e, Q [Event c (inl e)] (Raised e)) /\
      (forall r, sat (k r) (fun tr o => Q (Event c (inr r) :: tr) o))
  end.

(** ** Reading a trace *)

Definition is_ok (ev : event) : bool :=
  match ev with
  | Event _ (inr _) => true
  | Event _ (inl _) => false
  end.

(** Calls that create a directory: [os.makedirs] and [shutil.copytree]. *)
Definition creates_directory (ev : event) : bool :=
  match ev with
  | Event c _ =>
      match c with
      | makedirs _ _ | copytree _ _ _ => true
      | _ => false
      end
  end.

(** Construction of a buffer or of the agent, and the two buffer methods that
    launch trials. *)
Definition builds_or_launches (ev : event) : bool :=
  match ev with
  | Event c _ =>
      match c with
      | new_LocalBuffer _ _ _ _ _ | new_SlurmBuffer _ _ _ _ _ _
      | new_PPOAgent _ _ _ _ _ | buffer_prepare _ | buffer_fill _ => true
      | _ => false
      end
  end.

Definition prepare_or_dummy (ev : event) : bool :=
  match ev with
  | Event c _ =>
      match c with
      | buffer_prepare _ | create_dummy_policy _ _ _ _ => true
      | _ => false
      end
  end.

Definition is_reset_or_fill (ev : event) : bool :=
  match ev with
  | Event c _ =>
      match c with
      | buffer_reset _ | buffer_fill _ => true
      | _ => false
      end
  end.

(** The calls of the loop body, lines 166-176. *)
Definition loop_call (ev : event) : bool :=
  match ev with
  | Event c _ =>
      match c with
      | logger_info _ | buffer_fill _ | buffer_observations _ | agent_update _ _ _ _
      | agent_save_state _ _ | agent_trace_policy _ | buffer_update_policy _ _
      | policy_save _ _ | buffer_reset _ => true
      | _ => false
      end
  end.

(** What [agent.history["episode"]] answered. *)
Definition history_answer (ev : event) : list (list Z) :=
  match ev with
  | Event c r =>
      match c in call R return exn + R -> list (list Z) with
      | agent_history_episode _ =>
          fun r => match r with inr l => [l] | inl _ => [] end
      | _ => fun _ => []
      end r
  end.

(** The value assigned to [buffer._n_fills]. *)
Definition n_fills_written (ev : event) : list Z :=
  match ev with
  | Event c _ =>
      match c with
      | buffer_set_n_fills _ n => [n]
      | _ => []
      end
  end.

Inductive buffer_op := OpFill | OpReset.

Definition fill_reset (ev : event) : list buffer_op :=
  match ev with
  | Event c _ =>
      match c with
      | buffer_fill _ => [OpFill]
      | buffer_reset _ => [OpReset]
      | _ => []
      end
  end.

(** The file a call of [agent.save_state] names. *)
Definition checkpoint_written (ev : event) : list string :=
  match ev with
  | Event c _ =>
      match c with
      | agent_save_state _ path => [path]
      | _ => []
      end
  end.

(** The file a call of [policy.save] names. *)
Definition policy_saved (ev : event) : list string :=
  match ev with
  | Event c _ =>
      match c with
      | policy_save _ path => [path]
      | _ => []
      end
  end.

Definition batch : Type := (list Tensor * list Tensor * list Tensor)%type.

(** The arguments of a call of [agent.update]. *)
Definition update_args (ev : event) : list batch :=
  match ev with
  | Event c _ =>
      match c with
      | agent_update _ s a r => [(s, a, r)]
      | _ => []
      end
  end.

(** What [buffer.observations] answered. *)
Definition observed (ev : event) : list batch :=
  match ev with
  | Event c r =>
      match c in call R return exn + R -> list batch with
      | buffer_observations _ =>
          fun r => match r with inr o => [o] | inl _ => [] end
      | _ => fun _ => []
      end r
  end.

Inductive persist_step :=
| CheckpointWrite (path : string)
| PolicyPush.

Definition checkpoint_or_push (ev : event) : list persist_step :=
  match ev with
  | Event c _ =>
      match c with
      | agent_save_state _ path => [CheckpointWrite path]
      | buffer_update_policy _ _ => [PolicyPush]
      | _ => []
      end
  end.

(** [starting_episode] as the trace determines it: one more than the last
    entry of the loaded history, or 0 when no history was read. *)
Definition starting_episode_of (tr : list event) : Z :=
  match flat_map history_answer tr with
  | hist :: _ => match last_item hist with inr k => k + 1 | inl _ => 0 end
  | [] => 0
  end.

(** [list(range(e, e + n))]. *)
Fixpoint range (e : Z) (n : nat) : list Z :=
  match n with
  | O => []
  | S n' => e :: range (e + 1) n'
  end.

Definition checkpoint_path (training_path : string) (e : Z) : string :=
  join training_path ["checkpoint_" ++ str_int e ++ ".pt"].

Definition policy_path (training_path : string) (e : Z) : string :=
  join training_path ["policy_trace_" ++ str_int e ++ ".pt"].

(** ** The episode sequence as the specification words it

    Steps 1-6 of the training loop for episode [e]: what was observed, the
    statistics message and the exported policy are the data of the episode. *)

Record episode_data := {
  ep_states : list Tensor;
  ep_actions : list Tensor;
  ep_rewards : list Tensor;
  ep_message : string;
  ep_policy : Policy
}.

Definition ok {R} (c : call R) (r : R) : event := Event c (inr r).

Definition episode_sequence (training_path : string) (episodes : Z)
    (buf : Buffer) (agent : Agent) (e : Z) (d : episode_data) : list event :=
  [ ok (logger_info ("Start of episode " ++ str_int e)) tt;
    ok (buffer_fill buf) tt;
    ok (buffer_observations buf) (ep_states d, ep_actions d, ep_rewards d);
    ok (logger_info (ep_message d)) tt;
    ok (agent_update agent (ep_states d) (ep_actions d) (ep_rewards d)) tt;
    ok (agent_save_state agent (checkpoint_path training_path e)) tt;
    ok (agent_trace_policy agent) (ep_policy d);
    ok (buffer_update_policy buf (ep_policy d)) tt;
    ok (policy_save (ep_policy d) (policy_path training_path e)) tt ]
  ++ (if e =? episodes - 1 then [] else [ok (buffer_reset buf) tt]).

Fixpoint episodes_sequence (training_path : string) (episodes : Z)
    (buf : Buffer) (agent : Agent) (e : Z) (ds : list episode_data) : list event :=
  match ds with
  | [] => []
  | d :: ds' =>
      episode_sequence training_path episodes buf agent e d
      ++ episodes_sequence training_path episodes buf agent (e + 1) ds'
  end.

(** [n] fills with exactly one reset between two consecutive ones and none
    after the last. *)
Fixpoint fills_with_resets (n : nat) : list buffer_op :=
  match n with
  | O => []
  | S n' =>
      OpFill :: match n' with
                | O => []
                | S _ => OpReset :: fills_with_resets n'
                end
  end.

(** Strict alternation of the two buffer operations, [next] first. *)
Fixpoint alternation (m : nat) (next : buffer_op) : list buffer_op :=
  match m with
  | O => []
  | S m' =>
      next :: alternation m' (match next with OpFill => OpReset | OpReset => OpFill end)
  end.

(** Checkpoint write then policy push, episode after episode. *)
Definition persist_pattern (training_path : string) (e : Z) (n : nat)
  : list persist_step :=
  flat_map (fun i => [CheckpointWrite (checkpoint_path training_path i); PolicyPush])
           (range e n).

(** ** All the runs of a loop

    [loop_run body_ok body_fail n e tr o]: [tr] and [o] are the trace and the
    outcome of [n] rounds starting at index [e], where a round that returns
    has a trace in [body_ok] and one that raises has a trace in [body_fail]. *)

Inductive loop_run (body_ok : Z -> list event -> Prop)
    (body_fail : Z -> list event -> exn -> Prop)
  : nat -> Z -> list event -> outcome unit -> Prop :=
| loop_done e : loop_run body_ok body_fail O e [] (Returned tt)
| loop_next n e tr1 tr2 o :
    body_ok e tr1 ->
    loop_run body_ok body_fail n (e + 1) tr2 o ->
    loop_run body_ok body_fail (S n) e (tr1 ++ tr2) o
| loop_abort n e tr x :
    body_fail e tr x ->
    loop_run body_ok body_fail (S n) e tr (Raised x).

Definition batch_of (d : episode_data) : batch :=
  (ep_states d, ep_actions d, ep_rewards d).

(** The range of the loop ends at [episodes - 1]. *)
Definition aligned (episodes : Z) (n : nat) (e : Z) : Prop :=
  n = O \/ e + Z.of_nat n = episodes.

Definition nonempty_batch (b : batch) : Prop :=
  let '(_, actions, rewards) := b in actions <> [] /\ rewards <> [].

Definition empty_batch (b : batch) : Prop :=
  let '(_, actions, rewards) := b in actions = [] \/ rewards = [].

(** The traces of an episode that returns: the sequence of the
    specification, on a batch with at least one trajectory. *)
Definition episode_ok (training_path : string) (episodes : Z)
    (buf : Buffer) (agent : Agent) (e : Z) (tr : list event) : Prop :=
  exists d,
    tr = episode_sequence training_path episodes buf agent e d /\
    ep_actions d <> [] /\ ep_rewards d <> [] /\
    print_statistics (ep_actions d) (ep_rewards d) = perform (logger_info (ep_message d)).

(** What is known of the trace of an episode that raises [x]. *)
Definition episode_fail (training_path : string) (episodes : Z)
    (buf : Buffer) (agent : Agent) (e : Z) (tr : list event) (x : exn) : Prop :=
  forallb loop_call tr = true /\
  (exists j, flat_map fill_reset tr = firstn j [OpFill; OpReset]) /\
  (exists j, flat_map checkpoint_or_push tr
             = firstn j [CheckpointWrite (checkpoint_path training_path e); PolicyPush]) /\
  (exists j, flat_map update_args tr = firstn j (flat_map observed tr)) /\
  (List.length (flat_map observed tr) <= 1)%nat /\
  Forall nonempty_batch (flat_map update_args tr) /\
  (forall b, In b (flat_map observed tr) -> empty_batch b ->
             x = ZeroDivisionError "division by zero" /\ flat_map update_args tr = []).

(** The steps of an episode that touch the batch, the checkpoint or the
    policy. *)
Definition episode_step (ev : event) : bool :=
  match ev with
  | Event c _ =>
      match c with
      | buffer_fill _ | buffer_observations _ | agent_update _ _ _ _
      | agent_save_state _ _ | agent_trace_policy _ | buffer_update_policy _ _
      | policy_save _ _ => true
      | _ => false
      end
  end.

(** The part of a trace before the first event that satisfies [P]. *)
Fixpoint before_first (P : event -> bool) (tr : list event) : list event :=
  match tr with
  | [] => []
  | ev :: tr' => if P ev then [] else ev :: before_first P tr'
  end.

(** The time-window hand-off of lines 159-160: three reads of
    [buffer.base_env], the read of [end_time] and the two assignments. *)
Definition hand_off_window (buf : Buffer) (finish_time : Float)
    (e1 e2 e3 : Env) (t : Float) : list event :=
  [ ok (buffer_base_env buf) e1;
    ok (env_end_time e1) t;
    ok (buffer_base_env buf) e2;
    ok (env_set_start_time e2 t) tt;
    ok (buffer_base_env buf) e3;
    ok (env_set_end_time e3 finish_time) tt ].

(** The sentence of the specification on an unknown simulation name, word
    for word: the run ends in a ValueError and no directory has been created
    by then. *)
Definition rejects_before_any_directory (args : Args) : Prop :=
  forall W (h : handler W) (w : W),
    existsb creates_directory (trace_of h (main args) w) = false /\
    (forallb is_ok (trace_of h (main args) w) = true ->
     exists msg, outcome_of h (main args) w = Raised (ValueError msg)).

(** The sentence of the specification on an unknown backend, word for word:
    when the name given on the command line is neither ['local'] nor
    ['slurm'], nothing is built or launched and the run ends in a
    ValueError. *)
Definition rejects_backend_by_name (args : Args) : Prop :=
  environment args <> "local" -> environment args <> "slurm" ->
  forall W (h : handler W) (w : W),
    existsb builds_or_launches (trace_of h (main args) w) = false /\
    (forallb is_ok (trace_of h (main args) w) = true ->
     exists msg, outcome_of h (main args) w = Raised (ValueError msg)).

(** The sentence of the specification on the statistics step, word for
    word: whatever the batch, [print_statistics] is one call of the logger
    and nothing else, and [agent.update] receives the observed batch. *)
Definition purely_observational (args : Args) : Prop :=
  (forall actions rewards : list Tensor,
      exists msg, print_statistics actions rewards = perform (logger_info msg)) /\
  (forall W (h : handler W) (w : W),
      exists j,
        flat_map update_args (trace_of h (main args) w)
        = firstn j (flat_map observed (trace_of h (main args) w))).

(** ** More readings of a trace *)

(** What [exists(path)] answered. *)
Definition probe_answer (ev : event) : list (string * bool) :=
  match ev with
  | Event c r =>
      match c in call R return exn + R -> list (string * bool) with
      | exists_ path => fun r => match r with inr b => [(path, b)] | inl _ => [] end
      | _ => fun _ => []
      end r
  end.

(** The arguments of a call of [copytree]. *)
Definition copied (ev : event) : list (string * string * bool) :=
  match ev with
  | Event c _ =>
      match c with
      | copytree src dst flag => [(src, dst, flag)]
      | _ => []
      end
  end.

(** The environment that [SIMULATION_ENVIRONMENTS[simulation]()] answered. *)
Definition env_made (ev : event) : list Env :=
  match ev with
  | Event c r =>
      match c in call R return exn + R -> list Env with
      | new_env _ => fun r => match r with inr e => [e] | inl _ => [] end
      | _ => fun _ => []
      end r
  end.

(** What [env.mpi_ranks] answered. *)
Definition ranks_answer (ev : event) : list Z :=
  match ev with
  | Event c r =>
      match c in call R return exn + R -> list Z with
      | env_mpi_ranks _ => fun r => match r with inr n => [n] | inl _ => [] end
      | _ => fun _ => []
      end r
  end.

(** The tasks per node and the node count of a call of [SlurmConfig]. *)
Definition config_call (ev : event) : list (Z * Z) :=
  match ev with
  | Event c _ =>
      match c with
      | new_SlurmConfig n_tasks n_nodes _ _ _ _ => [(n_tasks, n_nodes)]
      | _ => []
      end
  end.

(** The configuration that [SlurmConfig(...)] answered. *)
Definition config_made (ev : event) : list SlurmConfig :=
  match ev with
  | Event c r =>
      match c in call R return exn + R -> list SlurmConfig with
      | new_SlurmConfig _ _ _ _ _ _ =>
          fun r => match r with inr cfg => [cfg] | inl _ => [] end
      | _ => fun _ => []
      end r
  end.

Inductive buffer_built :=
| LocalBuilt (path : string) (env : Env) (buffer_size n_runners timeout : Z)
| SlurmBuilt (path : string) (env : Env) (buffer_size n_runners : Z)
    (config : SlurmConfig) (timeout : Z).

(** The calls of the two buffer constructors. *)
Definition buffer_construction (ev : event) : list buffer_built :=
  match ev with
  | Event c _ =>
      match c with
      | new_LocalBuffer p e s r t => [LocalBuilt p e s r t]
      | new_SlurmBuffer p e s r cfg t => [SlurmBuilt p e s r cfg t]
      | _ => []
      end
  end.

(** The arguments of a call of [PPOAgent]. *)
Definition agent_construction (ev : event)
  : list (Z * Z * Bounds * Bounds * agent_config) :=
  match ev with
  | Event c _ =>
      match c with
      | new_PPOAgent ns na lo hi cfg => [(ns, na, lo, hi, cfg)]
      | _ => []
      end
  end.

Definition n_states_answer (ev : event) : list Z :=
  match ev with
  | Event c r =>
      match c in call R return exn + R -> list Z with
      | env_n_states _ => fun r => match r with inr n => [n] | inl _ => [] end
      | _ => fun _ => []
      end r
  end.

Definition n_actions_answer (ev : event) : list Z :=
  match ev with
  | Event c r =>
      match c in call R return exn + R -> list Z with
      | env_n_actions _ => fun r => match r with inr n => [n] | inl _ => [] end
      | _ => fun _ => []
      end r
  end.

Definition bounds_answer (ev : event) : list Bounds :=
  match ev with
  | Event c r =>
      match c in call R return exn + R -> list Bounds with
      | env_action_bounds _ => fun r => match r with inr b => [b] | inl _ => [] end
      | _ => fun _ => []
      end r
  end.

Definition path_answer (ev : event) : list string :=
  match ev with
  | Event c r =>
      match c in call R return exn + R -> list string with
      | env_path _ => fun r => match r with inr p => [p] | inl _ => [] end
      | _ => fun _ => []
      end r
  end.

(** The steps of lines 147-157 that initialise or restore the training
    state. *)
Inductive init_step :=
| DummyPolicy (n_states n_actions : Z) (path : string) (bounds : Bounds)
| Prepare
| LoadState (path : string)
| ReadHistory
| SetFills (n : Z).

Definition initialisation (ev : event) : list init_step :=
  match ev with
  | Event c _ =>
      match c with
      | create_dummy_policy ns na p b => [DummyPolicy ns na p b]
      | buffer_prepare _ => [Prepare]
      | agent_load_state _ p => [LoadState p]
      | agent_history_episode _ => [ReadHistory]
      | buffer_set_n_fills _ n => [SetFills n]
      | _ => []
      end
  end.

(** What [time()] answered. *)
Definition clock (ev : event) : list Float :=
  match ev with
  | Event c r =>
      match c in call R return exn + R -> list Float with
      | time => fun r => match r with inr t => [t] | inl _ => [] end
      | _ => fun _ => []
      end r
  end.

Definition is_clock (ev : event) : bool :=
  match ev with
  | Event c _ => match c with time => true | _ => false end
  end.

(** The policy that [agent.trace_policy()] answered, the one handed to
    [buffer.update_policy] and the one whose [save] is called. *)
Definition traced (ev : event) : list Policy :=
  match ev with
  | Event c r =>
      match c in call R return exn + R -> list Policy with
      | agent_trace_policy _ => fun r => match r with inr p => [p] | inl _ => [] end
      | _ => fun _ => []
      end r
  end.

Definition pushed (ev : event) : list Policy :=
  match ev with
  | Event c _ =>
      match c with
      | buffer_update_policy _ p => [p]
      | _ => []
      end
  end.

Definition saved (ev : event) : list Policy :=
  match ev with
  | Event c _ =>
      match c with
      | policy_save p _ => [p]
      | _ => []
      end
  end.

(** What is known in addition of the trace of an episode that raises [x]:
    when every call returned, the exception is the division by zero of
    [print_statistics] on the batch just observed. *)
Definition episode_raise (tr : list event) (x : exn) : Prop :=
  forallb loop_call tr = true /\
  (forallb is_ok tr = true ->
   x = ZeroDivisionError "division by zero" /\
   exists b, flat_map observed tr = [b] /\ empty_batch b) /\
  (exists j, flat_map pushed tr = firstn j (flat_map traced tr)) /\
  (exists j, flat_map saved tr = firstn j (flat_map pushed tr)).

(** The ways in which [main] itself ends a run all of whose calls return. *)
Inductive own_ending (args : Args) (tr : list event) : outcome unit -> Prop :=
| ends_unknown_simulation :
    contains (keys SIMULATION_ENVIRONMENTS) (simulation args) = false ->
    own_ending args tr (Raised (ValueError (unknown_simulation_msg (simulation args))))
| ends_unknown_executer :
    contains (keys SIMULATION_ENVIRONMENTS) (simulation args) = true ->
    lower (environment args) <> "local" ->
    lower (environment args) <> "slurm" ->
    own_ending args tr
      (Raised (ValueError (unknown_executer_msg (lower (environment args)))))
| ends_empty_history :
    checkpoint args <> "" ->
    flat_map history_answer tr = [[]] ->
    own_ending args tr (Raised (IndexError "list index out of range"))
| ends_empty_batch b :
    In b (flat_map observed tr) -> empty_batch b ->
    own_ending args tr (Raised (ZeroDivisionError "division by zero"))
| ends_returned :
    contains (keys SIMULATION_ENVIRONMENTS) (simulation args) = true ->
    lower (environment args) = "local" \/ lower (environment args) = "slurm" ->
    Forall nonempty_batch (flat_map observed tr) ->
    own_ending args tr (Returned tt).

(** A buffer built as the command line says: the backend that the
    lower-cased name selects, the output directory, the environment made in
    this run, the sizes and the timeout of the arguments, and for the
    cluster the configuration made in this run. *)
Definition buffer_as_configured (args : Args) (tr : list event)
    (b : buffer_built) : Prop :=
  match b with
  | LocalBuilt p e s r t =>
      lower (environment args) = "local" /\
      p = output args /\ In e (flat_map env_made tr) /\
      s = buffer args /\ r = runners args /\ t = timeout args
  | SlurmBuilt p e s r cfg t =>
      lower (environment args) <> "local" /\ lower (environment args) = "slurm" /\
      p = output args /\ In e (flat_map env_made tr) /\
      s = buffer args /\ r = runners args /\
      In cfg (flat_map config_made tr) /\ t = timeout args
  end.

(** An agent built from what the environment answered: the dimensions are
    the first answers of [n_states] and [n_actions], the lower bound is the
    negation of the first answer of [action_bounds], the upper bound its
    second answer, and the keyword arguments are the entry of
    [DEFAULT_CONFIG]. *)
Definition agent_as_read (args : Args) (tr : list event)
    (a : Z * Z * Bounds * Bounds * agent_config) : Prop :=
  let '(ns, na, lo, hi, cfg) := a in
  exists b1 b2 rest,
    flat_map bounds_answer tr = b1 :: b2 :: rest /\
    lo = neg_bounds b1 /\ hi = b2 /\
    hd_error (flat_map n_states_answer tr) = Some ns /\
    hd_error (flat_map n_actions_answer tr) = Some na /\
    getitem DEFAULT_CONFIG (simulation args) = Some cfg.

(** The initialisation steps of a fresh start, as far as they got. *)
Definition fresh_initialisation (tr : list event) (l : list init_step) : Prop :=
  match l with
  | [] => True
  | DummyPolicy ns na p b :: l' =>
      In ns (flat_map n_states_answer tr) /\ In na (flat_map n_actions_answer tr) /\
      In p (flat_map path_answer tr) /\ In b (flat_map bounds_answer tr) /\
      (l' = [] \/ l' = [Prepare])
  | _ => False
  end.

(** The initialisation steps of a resumed run, as far as they got. *)
Definition resumed_initialisation (args : Args) (tr : list event)
    (l : list init_step) : Prop :=
  match l with
  | [] => True
  | LoadState p :: l' =>
      p = join (output args) [checkpoint args] /\
      (l' = [] \/ l' = [ReadHistory]
       \/ l' = [ReadHistory; SetFills (starting_episode_of tr)])
  | _ => False
  end.

(** The last two events of a run that returns, with the two answers of the
    clock. *)
Definition training_time_tail (t0 t1 : Float) : list event :=
  [ ok time t1;
    ok (logger_info ("Training time (s): " ++ format_float (float_sub t1 t0))) tt ].

(** The steps of lines 108-143, with the paths they name. *)
Inductive setup_step :=
| MakeOutput (path : string)
| ProbeBase (path : string)
| CopyBase (src dst : string)
| MakeEnv
| SetEnvPath (path : string)
| CheckFinish (base_path : string) (t_end : Float) (sim : string)
| MakeBuffer
| MakeAgent.

Definition setup (ev : event) : list setup_step :=
  match ev with
  | Event c _ =>
      match c with
      | makedirs p _ => [MakeOutput p]
      | exists_ p => [ProbeBase p]
      | copytree src dst _ => [CopyBase src dst]
      | new_env _ => [MakeEnv]
      | env_set_path _ p => [SetEnvPath p]
      | check_finish_time b t s => [CheckFinish b t s]
      | new_LocalBuffer _ _ _ _ _ | new_SlurmBuffer _ _ _ _ _ _ => [MakeBuffer]
      | new_PPOAgent _ _ _ _ _ => [MakeAgent]
      | _ => []
      end
  end.

(** The order of the set-up; [copy] tells whether the base case was absent. *)
Definition setup_plan (args : Args) (copy : bool) : list setup_step :=
  [ MakeOutput (output args); ProbeBase (join (output args) ["base"]) ]
  ++ (if copy
      then [CopyBase (join BASE_PATH ["openfoam"; "test_cases"; simulation args])
                     (join (output args) ["base"])]
      else [])
  ++ [ MakeEnv; SetEnvPath (join (output args) ["base"]);
       CheckFinish BASE_PATH (finish args) (simulation args);
       MakeBuffer; MakeAgent ].

End Driver.

Arguments Ret {C A} a.
Arguments Raise {C A} e.
Arguments Vis {C A R} c k.

(** ** A concrete set of collaborators

    Numbers are integers, a tensor is the list of its entries, handles are
    names; the collaborators count the calls they receive and answer from a
    fixed script. *)

Definition list_sum_Z (l : list Z) : Z := fold_right Z.add 0 l.

Definition scripted : Collaborators := {|
  Float := Z;
  Tensor := list Z;
  Bounds := Z;
  Env := string;
  Buffer := string;
  Agent := string;
  Policy := Z;
  SlurmConfig := string;
  neg_bounds := Z.opp;
  tensor_mean := fun t => list_sum_Z t / Z.of_nat (List.length t);
  tensor_std := fun _ => 0;
  float_sum := list_sum_Z;
  float_min := fun l => fold_right Z.min (hd 0 l) l;
  float_max := fun l => fold_right Z.max (hd 0 l) l;
  float_div_int := Z.div;
  float_sub := Z.sub;
  format_2_4f := str_int;
  format_float := str_int
|}.

Record script := {
  base_exists : bool;
  history : list Z;
  observations : list (list Z) * list (list Z) * list (list Z)
}.

(** The state is the number of calls answered so far; [time()] reads it and
    the exported policy is numbered by it. *)
Definition scripted_handler (sc : script) : @handler scripted Z :=
  fun R (c : @call scripted R) (w : Z) =>
    (match c in call R return exn + R with
     | makedirs _ _ => inr tt
     | exists_ _ => inr (base_exists sc)
     | copytree _ _ _ => inr tt
     | time => inr w
     | logging_info _ => inr tt
     | logger_info _ => inr tt
     | check_finish_time _ _ _ => inr tt
     | create_dummy_policy _ _ _ _ => inr tt
     | new_env RotatingCylinder2D => inr "cylinder"
     | new_env RotatingPinball2D => inr "pinball"
     | env_set_path _ _ => inr tt
     | env_path _ => inr "test_training/base"
     | env_mpi_ranks _ => inr 2
     | env_n_states _ => inr 12
     | env_n_actions _ => inr 1
     | env_action_bounds _ => inr 5
     | env_end_time _ => inr 4
     | env_set_start_time _ _ => inr tt
     | env_set_end_time _ _ => inr tt
     | new_SlurmConfig _ _ _ _ _ _ => inr "config"
     | new_LocalBuffer _ _ _ _ _ => inr "local buffer"
     | new_SlurmBuffer _ _ _ _ _ _ => inr "slurm buffer"
     | buffer_set_n_fills _ _ => inr tt
     | buffer_prepare _ => inr tt
     | buffer_base_env _ => inr "base"
     | buffer_reset _ => inr tt
     | buffer_fill _ => inr tt
     | buffer_observations _ => inr (observations sc)
     | buffer_update_policy _ _ => inr tt
     | new_PPOAgent _ _ _ _ _ => inr "agent"
     | agent_load_state _ _ => inr tt
     | agent_history_episode _ => inr (history sc)
     | agent_update _ _ _ _ => inr tt
     | agent_save_state _ _ => inr tt
     | agent_trace_policy _ => inr w
     | policy_save _ _ => inr tt
     end, w + 1).

(** Four trials that all succeed. *)
Definition four_trials : script := {|
  base_exists := false;
  history := [0; 1; 2];
  observations := ([[1]; [2]; [3]; [4]], [[1; 3]; [2]; [0]; [5]], [[7]; [8]; [9]; [6]])
|}.

(** A fill in which no trial succeeds. *)
Definition no_trial : script := {|
  base_exists := true;
  history := [0];
  observations := ([], [], [])
|}.

(** [episodes=2], four runners, buffer size four, timeout 60, a fresh start. *)
Definition two_episodes : @Args scripted := {|
  output := "test_training";
  environment := "local";
  iter := 2;
  runners := 4;
  buffer := 4;
  finish := (8 : @Float scripted);
  timeout := 60;
  checkpoint := "";
  simulation := "rotatingCylinder2D"
|}.

Definition with_simulation (args : @Args scripted) (s : string) : @Args scripted := {|
  output := output args; environment := environment args; iter := iter args;
  runners := runners args; buffer := buffer args; finish := finish args;
  timeout := timeout args; checkpoint := checkpoint args; simulation := s
|}.

Definition with_checkpoint (args : @Args scripted) (s : string) (n : Z) : @Args scripted := {|
  output := output args; environment := environment args; iter := n;
  runners := runners args; buffer := buffer args; finish := finish args;
  timeout := timeout args; checkpoint := s; simulation := simulation args
|}.

(** The same run resumed from the checkpoint of episode 2, five episodes in
    all. *)
Definition resumed : @Args scripted :=
  with_checkpoint two_episodes "checkpoint_2.pt" 5.

(** A checkpoint whose history is empty. *)
Definition no_history : script := {|
  base_exists := true;
  history := [];
  observations := ([[1]], [[1]], [[1]])
|}.

(** The run resumed from the checkpoint of episode 2 with three episodes in
    all: nothing is left to train. *)
Definition finished : @Args scripted :=
  with_checkpoint two_episodes "checkpoint_2.pt" 3.

Section Facts.

Context `{C : Collaborators}.
Variable BASE_PATH : string.

Local Open Scope list_scope.

(** ** Basic facts about runs *)

Lemma sat_mono {A} (p : prog A) (Q Q' : list event -> outcome A -> Prop) :
  (forall tr o, Q tr o -> Q' tr o) -> sat p Q -> sat p Q'.
Proof.
  revert Q Q'; induction p as [a | e | R c k IH]; simpl; intros Q Q' HQ Hp; auto.
  destruct Hp as [Hfail Hok]; split; auto.
  intro r; eapply IH; [ | apply Hok ]; simpl; auto.
Qed.

Lemma sat_run {W A} (h : handler W) (p : prog A) (Q : list event -> outcome A -> Prop) :
  sat p Q -> forall w, Q (trace_of h p w) (outcome_of h p w).
Proof.
  unfold trace_of, outcome_of.
  revert Q; induction p as [a | e | R c k IH]; simpl; intros Q Hp w; auto.
  destruct Hp as [Hfail Hok].
  destruct (h R c w) as [[e | r] w']; simpl; auto.
  specialize (IH r _ (Hok r) w').
  destruct (run h (k r) w') as [[tr o] w'']; simpl in *; auto.
Qed.

Lemma sat_bind {A B} (p : prog A) (f : A -> prog B)
    (Q : list event -> outcome B -> Prop) :
  sat p (fun tr o =>
           match o with
           | Returned a => sat (f a) (fun tr' o' => Q (tr ++ tr') o')
           | Raised e => Q tr (Raised e)
           end) ->
  sat (bind p f) Q.
Proof.
  revert Q; induction p as [a | e | R c k IH]; simpl; intros Q Hp.
  - exact Hp.
  - exact Hp.
  - destruct Hp as [Hfail Hok]; split; [ exact Hfail | ].
    intro r; apply IH; exact (Hok r).
Qed.

(** A loop whose body satisfies [body_ok] / [body_fail] has only runs in
    [loop_run]. *)
Lemma sat_for_episodes (body : Z -> prog unit)
    (body_ok : Z -> list event -> Prop)
    (body_fail : Z -> list event -> exn -> Prop) :
  (forall e, sat (body e) (fun tr o =>
                             match o with
                             | Returned _ => body_ok e tr
                             | Raised x => body_fail e tr x
                             end)) ->
  forall n e, sat (for_episodes body n e) (loop_run body_ok body_fail n e).
Proof.
  intros Hbody n; induction n as [| n IH]; intro e; simpl.
  - constructor.
  - apply sat_bind.
    eapply sat_mono; [ | apply Hbody ].
    intros tr [[] | x] H.
    + eapply sat_mono; [ | apply IH ].
      intros tr' o' H'; simpl; now constructor.
    + now constructor.
Qed.

(** Exploration of a finite program tree, one goal per way a run can end. *)
Ltac head_scrutinee p :=
  lazymatch p with
  | bind ?q _ => head_scrutinee q
  | if ?b then _ else _ => b
  | match ?x with _ => _ end => x
  end.

Ltac sat_branch :=
  lazymatch goal with
  | |- sat ?p _ => let x := head_scrutinee p in destruct x eqn:?
  end.

Ltac sat_explore :=
  repeat first
    [ progress cbn [sat bind perform negb]
    | sat_branch
    | lazymatch goal with
      | |- (forall e : exn, _) /\ (forall r, _) => split; intro
      end ].

(** ** One episode *)

Lemma mean_min_max_nonempty (l : list Float) :
  l <> [] -> exists m, mean_min_max l = inr m.
Proof. destruct l; [ congruence | intros _; simpl; eauto ]. Qed.

Lemma print_statistics_cases (actions rewards : list Tensor) :
  (actions <> [] /\ rewards <> [] /\
   exists msg, print_statistics actions rewards = perform (logger_info msg))
  \/ ((actions = [] \/ rewards = []) /\
      print_statistics actions rewards = Raise (ZeroDivisionError "division by zero")).
Proof.
  unfold print_statistics.
  destruct rewards as [| r rewards]; [ right; split; [ now right | reflexivity ] | ].
  destruct actions as [| a actions]; [ right; split; [ now left | reflexivity ] | ].
  left; split; [ discriminate | split; [ discriminate | ] ].
  simpl; eauto.
Qed.

Ltac solve_prefix :=
  first [ exists 0%nat; reflexivity | exists 1%nat; reflexivity
        | exists 2%nat; reflexivity ].

Ltac solve_empty_case :=
  let b := fresh "b" in
  let Hin := fresh "Hin" in
  let Hemp := fresh "Hemp" in
  intros b Hin Hemp; simpl in Hin;
  repeat match goal with
         | H : _ \/ _ |- _ => destruct H
         | H : False |- _ => destruct H
         end;
  subst; unfold empty_batch in *; intuition congruence.

Ltac solve_episode_fail :=
  unfold episode_fail; simpl;
  split; [ reflexivity | ];
  split; [ solve_prefix | ];
  split; [ solve_prefix | ];
  split; [ solve_prefix | ];
  split; [ lia | ];
  split; [ repeat constructor; assumption | ];
  solve_empty_case.

Ltac solve_episode_ok msg :=
  repeat match goal with u : unit |- _ => destruct u end;
  match goal with
  | |- episode_ok _ _ _ _ _
         (_ :: _ :: Event _ (inr (?s, ?a, ?r)) :: _ :: _ :: _ :: Event _ (inr ?p) :: _) =>
      exists {| ep_states := s; ep_actions := a; ep_rewards := r;
                ep_message := msg; ep_policy := p |}
  end;
  unfold episode_sequence, ok, checkpoint_path, policy_path;
  cbn [ep_states ep_actions ep_rewards ep_message ep_policy];
  match goal with
  | H : negb (_ =? _) = _ |- _ =>
      apply (f_equal negb) in H; rewrite Bool.negb_involutive in H;
      cbn [negb] in H; rewrite H
  end;
  repeat split; assumption || reflexivity.

Lemma episode_runs (training_path : string) (episodes : Z)
    (buf : Buffer) (agent : Agent) (e : Z) :
  sat (episode training_path episodes buf agent e)
      (fun tr o =>
         match o with
         | Returned _ => episode_ok training_path episodes buf agent e tr
         | Raised x => episode_fail training_path episodes buf agent e tr x
         end).
Proof.
  unfold episode.
  sat_explore; try solve_episode_fail.
  match goal with
  | |- sat (bind (print_statistics ?a ?r) _) _ =>
      destruct (print_statistics_cases a r) as [(Ha & Hr & msg & Hmsg) | (Hemp & Hraise)]
  end.
  - rewrite Hmsg.
    sat_explore; try solve_episode_fail; solve_episode_ok msg.
  - rewrite Hraise.
    sat_explore; solve_episode_fail.
Qed.

Lemma training_loop_runs (training_path : string) (episodes : Z)
    (buf : Buffer) (agent : Agent) (start : Z) :
  sat (training_loop training_path episodes buf agent start)
      (loop_run (episode_ok training_path episodes buf agent)
                (episode_fail training_path episodes buf agent)
                (Z.to_nat (episodes - start)) start).
Proof.
  unfold training_loop.
  apply sat_for_episodes; intro e; apply episode_runs.
Qed.

(** ** The loop, read through the projections *)

Lemma episode_sequence_projections training_path episodes buf agent e d :
  let tr := episode_sequence training_path episodes buf agent e d in
  forallb loop_call tr = true /\
  forallb is_ok tr = true /\
  flat_map checkpoint_written tr = [checkpoint_path training_path e] /\
  flat_map policy_saved tr = [policy_path training_path e] /\
  flat_map checkpoint_or_push tr
  = [CheckpointWrite (checkpoint_path training_path e); PolicyPush] /\
  flat_map update_args tr = [batch_of d] /\
  flat_map observed tr = [batch_of d] /\
  flat_map fill_reset tr = (if e =? episodes - 1 then [OpFill] else [OpFill; OpReset]).
Proof.
  unfold episode_sequence; destruct (e =? episodes - 1); simpl;
    repeat split; reflexivity.
Qed.

(** The runs of the loop that return are the episode sequences of the
    specification, one per index of the range. *)
Lemma loop_run_returned training_path episodes buf agent n e tr :
  loop_run (episode_ok training_path episodes buf agent)
           (episode_fail training_path episodes buf agent) n e tr (Returned tt) ->
  exists ds,
    List.length ds = n /\
    tr = episodes_sequence training_path episodes buf agent e ds /\
    Forall (fun d => nonempty_batch (batch_of d) /\
                     print_statistics (ep_actions d) (ep_rewards d)
                     = perform (logger_info (ep_message d))) ds.
Proof.
  intro H; remember (Returned tt) as o eqn:Ho.
  induction H as [e | n e tr1 tr2 o Hok Hrest IH | n e tr x Hfail].
  - exists []; repeat split; constructor.
  - destruct (IH Ho) as (ds & Hlen & Htr & Hall).
    destruct Hok as (d & Hd & Ha & Hr & Hmsg).
    exists (d :: ds); simpl; repeat split.
    + now rewrite Hlen.
    + now rewrite Hd, Htr.
    + constructor; [ | exact Hall ].
      unfold nonempty_batch, batch_of; auto.
  - discriminate.
Qed.

Lemma episodes_sequence_alphabet training_path episodes buf agent e ds :
  forallb loop_call (episodes_sequence training_path episodes buf agent e ds) = true /\
  forallb is_ok (episodes_sequence training_path episodes buf agent e ds) = true.
Proof.
  revert e; induction ds as [| d ds IH]; intro e; [ split; reflexivity | ].
  cbn [episodes_sequence]; rewrite !forallb_app.
  destruct (episode_sequence_projections training_path episodes buf agent e d)
    as (H1 & H2 & _).
  destruct (IH (e + 1)) as [H3 H4].
  now rewrite H1, H2, H3, H4.
Qed.

Lemma episodes_sequence_files training_path episodes buf agent e ds :
  let tr := episodes_sequence training_path episodes buf agent e ds in
  flat_map checkpoint_written tr
  = map (checkpoint_path training_path) (range e (List.length ds)) /\
  flat_map policy_saved tr
  = map (policy_path training_path) (range e (List.length ds)) /\
  flat_map checkpoint_or_push tr = persist_pattern training_path e (List.length ds) /\
  flat_map update_args tr = map batch_of ds /\
  flat_map observed tr = map batch_of ds.
Proof.
  revert e; induction ds as [| d ds IH]; intro e; [ repeat split; reflexivity | ].
  cbn [episodes_sequence List.length range map]; rewrite !flat_map_app.
  destruct (episode_sequence_projections training_path episodes buf agent e d)
    as (_ & _ & H1 & H2 & H3 & H4 & H5 & _).
  destruct (IH (e + 1)) as (I1 & I2 & I3 & I4 & I5).
  rewrite H1, H2, H3, H4, H5, I1, I2, I3, I4, I5.
  repeat split; reflexivity.
Qed.

Lemma aligned_next episodes n e :
  aligned episodes (S n) e ->
  aligned episodes n (e + 1) /\
  (e =? episodes - 1) = match n with O => true | S _ => false end.
Proof.
  intros [H | H]; [ discriminate | ].
  split.
  - right; lia.
  - destruct n; [ apply Z.eqb_eq | apply Z.eqb_neq ]; lia.
Qed.

Lemma aligned_range episodes start :
  aligned episodes (Z.to_nat (episodes - start)) start.
Proof.
  unfold aligned; lia.
Qed.

Lemma episodes_sequence_fills training_path episodes buf agent e ds :
  aligned episodes (List.length ds) e ->
  flat_map fill_reset (episodes_sequence training_path episodes buf agent e ds)
  = fills_with_resets (List.length ds).
Proof.
  revert e; induction ds as [| d ds IH]; intros e Hal; [ reflexivity | ].
  cbn [episodes_sequence List.length]; rewrite flat_map_app.
  destruct (episode_sequence_projections training_path episodes buf agent e d)
    as (_ & _ & _ & _ & _ & _ & _ & H).
  destruct (aligned_next _ _ _ Hal) as [Hal' Hlast].
  rewrite H, Hlast, (IH _ Hal').
  destruct ds; reflexivity.
Qed.

(** What holds of every run of the loop, returned or not. *)
Lemma loop_run_any training_path episodes buf agent n e tr o :
  loop_run (episode_ok training_path episodes buf agent)
           (episode_fail training_path episodes buf agent) n e tr o ->
  forallb loop_call tr = true /\
  (exists j, flat_map checkpoint_or_push tr = firstn j (persist_pattern training_path e n)) /\
  (exists j, flat_map update_args tr = firstn j (flat_map observed tr)) /\
  Forall nonempty_batch (flat_map update_args tr) /\
  (forall b, In b (flat_map observed tr) -> empty_batch b ->
             o = Raised (ZeroDivisionError "division by zero") /\
             (List.length (flat_map update_args tr)
              < List.length (flat_map observed tr))%nat).
Proof.
  induction 1 as [e | n e tr1 tr2 o Hok Hrest IH | n e tr x Hfail].
  - split; [ reflexivity | ].
    split; [ exists 0%nat; reflexivity | ].
    split; [ exists 0%nat; reflexivity | ].
    split; [ constructor | intros b [] ].
  - destruct Hok as (d & -> & Ha & Hr & _).
    destruct (episode_sequence_projections training_path episodes buf agent e d)
      as (H1 & _ & _ & _ & H3 & H4 & H5 & _).
    destruct IH as (I1 & [j3 I3] & [j4 I4] & I5 & I6).
    rewrite forallb_app, !flat_map_app, H1, I1, H3, H4, H5.
    split; [ reflexivity | ].
    split; [ exists (S (S j3)); rewrite I3; reflexivity | ].
    split; [ exists (S j4); rewrite I4; reflexivity | ].
    split; [ constructor; [ split; assumption | exact I5 ] | ].
    intros b [<- | Hin] Hemp.
    + destruct Hemp; contradiction.
    + destruct (I6 b Hin Hemp) as [-> Hlt]; split; [ reflexivity | simpl; lia ].
  - destruct Hfail as (F1 & _ & [j3 F3] & F4 & F5 & F6 & F7).
    split; [ exact F1 | ].
    split.
    { rewrite F3; destruct j3 as [| [| [| j3]]];
        [ exists 0%nat | exists 1%nat | exists 2%nat | exists 2%nat ]; reflexivity. }
    split; [ exact F4 | ].
    split; [ exact F6 | ].
    intros b Hin Hemp; destruct (F7 b Hin Hemp) as [-> Hnil].
    split; [ reflexivity | ].
    rewrite Hnil; destruct (flat_map observed tr); [ destruct Hin | simpl; lia ].
Qed.

Lemma loop_run_alternation training_path episodes buf agent n e tr o :
  loop_run (episode_ok training_path episodes buf agent)
           (episode_fail training_path episodes buf agent) n e tr o ->
  aligned episodes n e ->
  exists j, flat_map fill_reset tr = alternation j OpFill.
Proof.
  induction 1 as [e | n e tr1 tr2 o Hok Hrest IH | n e tr x Hfail]; intro Hal.
  - exists 0%nat; reflexivity.
  - destruct Hok as (d & -> & _).
    destruct (episode_sequence_projections training_path episodes buf agent e d)
      as (_ & _ & _ & _ & _ & _ & _ & H).
    destruct (aligned_next _ _ _ Hal) as [Hal' Hlast].
    rewrite flat_map_app, H, Hlast.
    destruct n as [| n].
    + inversion Hrest; subst; exists 1%nat; reflexivity.
    + destruct (IH Hal') as [j Hj]; exists (S (S j)); rewrite Hj; reflexivity.
  - destruct Hfail as (_ & [j F] & _).
    rewrite F; destruct j as [| [| [| j]]];
      [ exists 0%nat | exists 1%nat | exists 2%nat | exists 2%nat ]; reflexivity.
Qed.

(** Projections that see nothing of the loop. *)
Lemma loop_call_silent (tr : list event) :
  forallb loop_call tr = true ->
  flat_map history_answer tr = [] /\ flat_map n_fills_written tr = [] /\
  existsb prepare_or_dummy tr = false /\ existsb creates_directory tr = false.
Proof.
  induction tr as [| ev tr IH]; [ repeat split; reflexivity | ].
  cbn [forallb flat_map existsb]; intro H; apply andb_prop in H as [Hev Htr].
  destruct (IH Htr) as (I1 & I2 & I3 & I4); rewrite I1, I2, I3, I4.
  destruct ev as [R c r]; destruct c; try discriminate Hev; repeat split; reflexivity.
Qed.

Lemma sat_any {A} (p : prog A) (Q : list event -> outcome A -> Prop) :
  (forall tr o, Q tr o) -> sat p Q.
Proof.
  revert Q; induction p as [a | e | R c k IH]; simpl; intros Q HQ; auto.
Qed.

(** Exploration of [main]: the tree before and after the loop, and the
    runs of the loop through [training_loop_runs]. *)
Ltac enter_loop Hloop :=
  lazymatch goal with
  | |- sat (bind (training_loop _ _ _ _ _) _) _ =>
      apply sat_bind; eapply sat_mono; [ | apply training_loop_runs ];
      let tr := fresh "tr_loop" in
      let x := fresh "x" in
      intros tr [[] | x] Hloop
  end.

Ltac unfold_main :=
  unfold main, make_base_env, create_buffer, create_agent, load_checkpoint, hand_off.

(** ** Empty batches *)

(** C4: in no run is [agent.update] called on a batch without trajectories,
    and a run in which [buffer.observations] answers such a batch ends in
    the ZeroDivisionError of [print_statistics], the update of that episode
    not being called. *)
Theorem total_fill_failure_surfaced (args : Args) :
  forall W (h : handler W) (w : W),
    Forall nonempty_batch (flat_map update_args (trace_of h (main BASE_PATH args) w)) /\
    (forall b,
        In b (flat_map observed (trace_of h (main BASE_PATH args) w)) ->
        empty_batch b ->
        outcome_of h (main BASE_PATH args) w
        = Raised (ZeroDivisionError "division by zero") /\
        (List.length (flat_map update_args (trace_of h (main BASE_PATH args) w))
         < List.length (flat_map observed (trace_of h (main BASE_PATH args) w)))%nat).
Proof.
  intros W h w.
  apply (sat_run h (main BASE_PATH args)
           (fun tr o =>
              Forall nonempty_batch (flat_map update_args tr) /\
              (forall b, In b (flat_map observed tr) -> empty_batch b ->
                         o = Raised (ZeroDivisionError "division by zero") /\
                         (List.length (flat_map update_args tr)
                          < List.length (flat_map observed tr))%nat))).
  unfold_main.
  sat_explore; try (split; [ constructor | intros b [] ]).
  all: enter_loop Hloop;
    destruct (loop_run_any _ _ _ _ _ _ _ _ Hloop) as (_ & _ & _ & Hne & Hemp).
  all: sat_explore; simpl; rewrite ?flat_map_app; simpl; rewrite ?app_nil_r.
  all: split; [ exact Hne | ].
  all: try exact Hemp.
  all: intros b Hin Hb; destruct (Hemp b Hin Hb) as [Hd _]; discriminate Hd.
Qed.

Lemma sat_run_eq {W A} (h : handler W) (p : prog A)
    (Q : list event -> outcome A -> Prop) (w w' : W) tr o :
  sat p Q -> run h p w = (tr, o, w') -> Q tr o.
Proof.
  intros Hsat Hrun.
  pose proof (sat_run h p Q Hsat w) as H.
  unfold trace_of, outcome_of in H; now rewrite Hrun in H.
Qed.

Lemma run_outcome {W A} (h : handler W) (p : prog A) (w : W) (o : outcome A) :
  outcome_of h p w = o -> run h p w = (trace_of h p w, o, snd (run h p w)).
Proof.
  unfold outcome_of, trace_of; destruct (run h p w) as [[tr o'] w']; simpl.
  now intros ->.
Qed.

Lemma loop_returned_projections training_path episodes buf agent n e tr :
  loop_run (episode_ok training_path episodes buf agent)
           (episode_fail training_path episodes buf agent) n e tr (Returned tt) ->
  forallb loop_call tr = true /\
  forallb is_ok tr = true /\
  flat_map checkpoint_written tr = map (checkpoint_path training_path) (range e n) /\
  flat_map policy_saved tr = map (policy_path training_path) (range e n) /\
  (aligned episodes n e -> flat_map fill_reset tr = fills_with_resets n).
Proof.
  intro H; destruct (loop_run_returned _ _ _ _ _ _ _ H) as (ds & <- & -> & _).
  destruct (episodes_sequence_alphabet training_path episodes buf agent e ds) as [H1 H2].
  destruct (episodes_sequence_files training_path episodes buf agent e ds)
    as (H3 & H4 & _).
  repeat split; auto.
  apply episodes_sequence_fills.
Qed.

Ltac by_sat Hrun :=
  match type of Hrun with
  | run _ _ _ = (?tr, ?o, _) =>
      pattern tr, o; eapply sat_run_eq; [ | exact Hrun ]; clear Hrun
  end.

Ltac project :=
  simpl; rewrite ?flat_map_app; simpl; rewrite ?app_nil_r.

(** ** The statistics step *)

(** C8, as amended: on a batch with at least one action and one reward
    trajectory [print_statistics] is a single call of the logger whose
    answer is discarded, and in every run each call of [agent.update]
    receives the batch that [buffer.observations] answered in that
    episode. *)
Theorem statistics_observational (args : Args) (actions rewards : list Tensor)
    (Hactions : actions <> []) (Hrewards : rewards <> []) :
  (exists msg, print_statistics actions rewards = perform (logger_info msg)) /\
  (forall W (h : handler W) (w : W),
      exists j,
        flat_map update_args (trace_of h (main BASE_PATH args) w)
        = firstn j (flat_map observed (trace_of h (main BASE_PATH args) w))).
Proof.
  split.
  - destruct (print_statistics_cases actions rewards)
      as [(_ & _ & Hmsg) | ([Hemp | Hemp] & _)]; [ exact Hmsg | | ]; contradiction.
  - intros W h w.
    apply (sat_run h (main BASE_PATH args)
             (fun tr _ => exists j,
                  flat_map update_args tr = firstn j (flat_map observed tr))).
    unfold_main.
    sat_explore; try (exists 0%nat; reflexivity).
    all: enter_loop Hloop;
      destruct (loop_run_any _ _ _ _ _ _ _ _ Hloop) as (_ & _ & Hpre & _).
    all: sat_explore; project; exact Hpre.
Qed.

(** ** Resuming from a checkpoint *)

Lemma nonempty_truthy (s : string) : s <> ""%string -> truthy s = true.
Proof.
  intro H; unfold truthy; apply String.eqb_neq in H; now rewrite H.
Qed.




(** ** Files of a fresh run *)

Lemma append_inj_l (p a b : string) : (p ++ a = p ++ b)%string -> a = b.
Proof. induction p as [| c p IH]; simpl; [ auto | intros [= H]; auto ]. Qed.

Lemma string_length_append (a b : string) :
  String.length (a ++ b)%string = (String.length a + String.length b)%nat.
Proof. induction a as [| c a IH]; simpl; [ reflexivity | now rewrite IH ]. Qed.

Lemma append_inj_r (s a b : string) : (a ++ s = b ++ s)%string -> a = b.
Proof.
  revert b; induction a as [| c a IH]; intros [| d b] H; simpl in H.
  - reflexivity.
  - apply (f_equal String.length) in H; simpl in H; rewrite string_length_append in H; lia.
  - apply (f_equal String.length) in H; simpl in H; rewrite string_length_append in H; lia.
  - injection H as -> H; f_equal; auto.
Qed.

Lemma to_int_proper (z : Z) :
  Z.to_int z <> Decimal.Pos Decimal.Nil /\ Z.to_int z <> Decimal.Neg Decimal.Nil.
Proof.
  destruct z as [| p | p]; simpl; split; try discriminate;
    intros [= H]; exact (Unsigned.to_uint_nonnil p H).
Qed.

Lemma str_int_inj (a b : Z) : str_int a = str_int b -> a = b.
Proof.
  unfold str_int; intro H.
  apply (f_equal NilZero.int_of_string) in H.
  destruct (to_int_proper a) as [Ha1 Ha2], (to_int_proper b) as [Hb1 Hb2].
  rewrite !NilZero.isi in H by assumption.
  injection H as H.
  apply (f_equal Z.of_int) in H.
  now rewrite !DecimalZ.of_to in H.
Qed.

Lemma join_file_inj (training_path pre suf : string) (a b : Z) :
  startswith_sep pre = false -> pre <> ""%string ->
  join training_path [(pre ++ str_int a ++ suf)%string]
  = join training_path [(pre ++ str_int b ++ suf)%string] ->
  a = b.
Proof.
  intros Hsep Hpre; unfold join; cbn [fold_left]; unfold join_step.
  assert (Hs : forall x, startswith_sep (pre ++ x)%string = false).
  { intro x; destruct pre as [| c pre]; [ congruence | exact Hsep ]. }
  rewrite !Hs.
  destruct (orb _ _); intro H.
  - apply append_inj_l, append_inj_l, append_inj_r in H; now apply str_int_inj.
  - apply append_inj_l, append_inj_l, append_inj_l, append_inj_r in H; now apply str_int_inj.
Qed.

Lemma range_bounds (e : Z) (n : nat) (x : Z) : In x (range e n) -> e <= x.
Proof.
  revert e; induction n as [| n IH]; intros e; simpl; [ tauto | ].
  intros [<- | H]; [ lia | ]. apply IH in H; lia.
Qed.

Lemma range_NoDup (e : Z) (n : nat) : NoDup (range e n).
Proof.
  revert e; induction n as [| n IH]; intro e; simpl; constructor; auto.
  intro H; apply range_bounds in H; lia.
Qed.

Lemma checkpoint_path_injective (training_path : string) :
  Injective (checkpoint_path training_path).
Proof.
  intros a b; unfold checkpoint_path.
  apply (join_file_inj training_path "checkpoint_" ".pt"); [ reflexivity | discriminate ].
Qed.

Lemma policy_path_injective (training_path : string) :
  Injective (policy_path training_path).
Proof.
  intros a b; unfold policy_path.
  apply (join_file_inj training_path "policy_trace_" ".pt"); [ reflexivity | discriminate ].
Qed.

(** C7: a run that starts without a checkpoint and returns calls
    [agent.save_state] exactly on [checkpoint_0.pt], ...,
    [checkpoint_<episodes-1>.pt] and [policy.save] exactly on
    [policy_trace_0.pt], ..., [policy_trace_<episodes-1>.pt], in this order,
    all inside the output directory; the files of different episodes are
    different. *)
Theorem fresh_run_files (args : Args) (Hfresh : checkpoint args = ""%string) :
  forall W (h : handler W) (w w' : W) tr,
    run h (main BASE_PATH args) w = (tr, Returned tt, w') ->
    flat_map checkpoint_written tr
    = map (checkpoint_path (output args)) (range 0 (Z.to_nat (iter args))) /\
    flat_map policy_saved tr
    = map (policy_path (output args)) (range 0 (Z.to_nat (iter args))) /\
    NoDup (flat_map checkpoint_written tr) /\
    NoDup (flat_map policy_saved tr).
Proof.
  intros W h w w' tr Hrun.
  assert (Hgen : forall o,
             run h (main BASE_PATH args) w = (tr, o, w') ->
             o = Returned tt ->
             flat_map checkpoint_written tr
             = map (checkpoint_path (output args)) (range 0 (Z.to_nat (iter args))) /\
             flat_map policy_saved tr
             = map (policy_path (output args)) (range 0 (Z.to_nat (iter args)))).
  { clear Hrun; intros o Hrun; by_sat Hrun.
    unfold_main; rewrite Hfresh; cbn [truthy String.eqb negb].
    sat_explore; try discriminate.
    all: enter_loop Hloop; [ | discriminate ].
    all: rewrite Z.sub_0_r in Hloop;
      destruct (loop_returned_projections _ _ _ _ _ _ _ Hloop) as (_ & _ & H1 & H2 & _).
    all: sat_explore; try discriminate.
    all: intros _; project; split; assumption. }
  destruct (Hgen _ Hrun eq_refl) as [Hckpt Hpol].
  rewrite Hckpt, Hpol.
  repeat split.
  - apply Injective_map_NoDup; [ apply checkpoint_path_injective | apply range_NoDup ].
  - apply Injective_map_NoDup; [ apply policy_path_injective | apply range_NoDup ].
Qed.

(** ** Resets and fills *)

(** C6: in every run resets and fills alternate, the reset of line 161
    first; in a run that returns there is exactly one reset between two
    consecutive fills of the loop and none after the fill of the last
    episode, index [episodes - 1]. *)
Theorem reset_between_fills (args : Args) :
  forall W (h : handler W) (w w' : W) tr o,
    run h (main BASE_PATH args) w = (tr, o, w') ->
    (exists j, flat_map fill_reset tr = alternation j OpReset) /\
    (o = Returned tt ->
     flat_map fill_reset tr
     = OpReset :: fills_with_resets (Z.to_nat (iter args - starting_episode_of tr))).
Proof.
  intros W h w w' tr o Hrun; by_sat Hrun.
  unfold_main.
  sat_explore;
    try (split; [ first [ exists 0%nat; reflexivity | exists 1%nat; reflexivity ]
                | discriminate ]).
  all: enter_loop Hloop;
    destruct (loop_run_any _ _ _ _ _ _ _ _ Hloop) as (Halpha & _);
    destruct (loop_call_silent _ Halpha) as (Hq1 & _);
    destruct (loop_run_alternation _ _ _ _ _ _ _ _ Hloop (aligned_range _ _)) as [j Hj].
  all: sat_explore.
  all: (split; [ exists (S j); project; rewrite Hj; reflexivity | ]).
  all: try discriminate.
  all: intros _; unfold starting_episode_of; project; rewrite ?Hq1; simpl.
  all: repeat match goal with
              | H : last_item _ = _ |- _ => rewrite H
              end.
  all: f_equal;
    apply (loop_returned_projections _ _ _ _ _ _ _ Hloop), aligned_range.
Qed.


(** ** The sequence of an episode *)

Ltac prefix_before_time L :=
  lazymatch L with
  | Event time _ :: _ => constr:(@nil event)
  | ?x :: ?rest => let p := prefix_before_time rest in constr:(x :: p)
  end.

(** C3: a run that returns consists of the calls before the loop, the first
    reading of the clock, then for each episode [e] from the starting episode
    to [episodes - 1] the sequence fill, observations, statistics, update on
    the observed batch, checkpoint [e], policy export, policy push, policy
    file [e] and (except for the last episode) reset, and finally the
    training-time message.  In every run, returned or not, checkpoint writes
    and policy pushes alternate, the write of episode [e] before its push. *)
Theorem episode_sequencing (args : Args) :
  forall W (h : handler W) (w w' : W) tr o,
    run h (main BASE_PATH args) w = (tr, o, w') ->
    (exists j,
        flat_map checkpoint_or_push tr
        = firstn j (persist_pattern (output args) (starting_episode_of tr)
                      (Z.to_nat (iter args - starting_episode_of tr)))) /\
    (o = Returned tt ->
     exists pre buf agent start ds t0 t1 msg,
       tr = pre ++ [ok time t0]
            ++ episodes_sequence (output args) (iter args) buf agent start ds
            ++ [ok time t1; ok (logger_info msg) tt] /\
       start = starting_episode_of tr /\
       List.length ds = Z.to_nat (iter args - start) /\
       existsb episode_step pre = false /\
       Forall (fun d => nonempty_batch (batch_of d) /\
                        print_statistics (ep_actions d) (ep_rewards d)
                        = perform (logger_info (ep_message d))) ds).
Proof.
  intros W h w w' tr o Hrun; by_sat Hrun.
  unfold_main.
  sat_explore; try (split; [ exists 0%nat; reflexivity | discriminate ]).
  all: enter_loop Hloop;
    destruct (loop_run_any _ _ _ _ _ _ _ _ Hloop) as (Halpha & [j Hj] & _);
    destruct (loop_call_silent _ Halpha) as (Hq1 & _).
  all: sat_explore.
  all: assert (Hstart :
                 forall post,
                   flat_map history_answer (tr_loop ++ post)
                   = flat_map history_answer post)
         by (intro post; now rewrite flat_map_app, Hq1).
  all: split;
    [ exists j; unfold starting_episode_of; project; rewrite ?Hq1; simpl;
      repeat match goal with
             | H : last_item _ = _ |- _ => rewrite H
             end;
      exact Hj
    | ].
  all: try discriminate.
  all: intros _;
    destruct (loop_run_returned _ _ _ _ _ _ _ Hloop) as (ds & Hlen & -> & Hall).
  all: repeat match goal with u : unit |- _ => destruct u end.
  all: match goal with
       | |- exists pre, exists buf agent start ds t0 t1 msg, ?L = _ /\ _ =>
           let p := prefix_before_time L in
           match type of Hloop with
           | loop_run (episode_ok _ _ ?b ?a) _ _ ?start _ _ =>
               exists p, b, a, start, ds
           end
       end.
  all: do 3 eexists.
  all: (split; [ reflexivity | ]).
  all: (split;
        [ unfold starting_episode_of; simpl; rewrite ?Hstart; simpl;
          repeat match goal with
                 | H : last_item _ = _ |- _ => rewrite H
                 end;
          reflexivity
        | ]).
  all: (split; [ exact Hlen | split; [ reflexivity | exact Hall ] ]).
Qed.


(** ** The time window *)

Lemma find_before_first (P : event -> bool) (tr : list event) (ev : event) :
  find P tr = Some ev ->
  exists post,
    tr = before_first P tr ++ ev :: post /\
    existsb P (before_first P tr) = false.
Proof.
  induction tr as [| x tr IH]; simpl; [ discriminate | ].
  destruct (P x) eqn:HP.
  - intros [= <-]; exists tr; split; reflexivity.
  - intro Hfind; destruct (IH Hfind) as (post & Htr & Hnone).
    exists post; simpl; rewrite HP, Hnone; split; [ now f_equal | reflexivity ].
Qed.

Lemma existsb_find (P : event -> bool) (tr : list event) :
  existsb P tr = true -> exists ev, find P tr = Some ev.
Proof.
  induction tr as [| x tr IH]; simpl; [ discriminate | ].
  destruct (P x); [ eauto | exact IH ].
Qed.

Ltac but_last_six L :=
  lazymatch L with
  | [_; _; _; _; _; _] => constr:(@nil event)
  | ?x :: ?rest => let p := but_last_six rest in constr:(x :: p)
  end.

Ltac hand_off_leaf :=
  let ev := fresh "ev" in
  let Hfind := fresh "Hfind" in
  intros ev Hfind; simpl in Hfind;
  first
    [ discriminate Hfind
    | injection Hfind as <-;
      repeat match goal with u : unit |- _ => destruct u end;
      cbn [before_first is_reset_or_fill];
      lazymatch goal with
      | |- exists pre, exists buf e1 e2 e3 t r, ?L = _ /\ _ =>
          let p := but_last_six L in
          exists p; do 6 eexists; split; reflexivity
      end ].

(** C9: in every run that reaches a reset or a fill, fresh or resumed, the
    first of them is the reset of line 161 and the six calls just before it
    are the hand-off: [end_time] of the base environment is read, that value
    is assigned to its [start_time], and the finish time of the command
    line is assigned to its [end_time]. *)
Theorem time_window_hand_off (args : Args) :
  forall W (h : handler W) (w w' : W) tr o,
    run h (main BASE_PATH args) w = (tr, o, w') ->
    existsb is_reset_or_fill tr = true ->
    exists pre buf e1 e2 e3 t r post,
      tr = pre ++ hand_off_window buf (finish args) e1 e2 e3 t
           ++ Event (buffer_reset buf) r :: post /\
      existsb is_reset_or_fill (pre ++ hand_off_window buf (finish args) e1 e2 e3 t)
      = false.
Proof.
  intros W h w w' tr o Hrun Hsome.
  assert (Hwin : forall ev,
             find is_reset_or_fill tr = Some ev ->
             exists pre buf e1 e2 e3 t r,
               before_first is_reset_or_fill tr
               = pre ++ hand_off_window buf (finish args) e1 e2 e3 t /\
               ev = Event (buffer_reset buf) r).
  { clear Hsome; by_sat Hrun.
    unfold_main.
    sat_explore; try hand_off_leaf.
    all: apply sat_any; intros tr_rest o_rest; hand_off_leaf. }
  destruct (existsb_find _ _ Hsome) as [ev Hfind].
  destruct (Hwin ev Hfind) as (pre & buf & e1 & e2 & e3 & t & r & Hbefore & ->).
  destruct (find_before_first _ _ _ Hfind) as (post & Htr & Hnone).
  exists pre, buf, e1, e2, e3, t, r, post.
  rewrite Hbefore in Htr, Hnone.
  split; [ now rewrite app_assoc | exact Hnone ].
Qed.

(** ** Configuration errors *)

Lemma known_simulation_getitem (sim : string) :
  contains (keys SIMULATION_ENVIRONMENTS) sim = true ->
  getitem SIMULATION_ENVIRONMENTS sim <> None /\ getitem DEFAULT_CONFIG sim <> None.
Proof.
  unfold contains; simpl.
  destruct (String.eqb sim "rotatingCylinder2D");
    destruct (String.eqb sim "rotatingPinball2D"); simpl; intro H;
    split; congruence.
Qed.

Lemma unknown_simulation (sim : string) :
  sim <> "rotatingCylinder2D"%string -> sim <> "rotatingPinball2D"%string ->
  contains (keys SIMULATION_ENVIRONMENTS) sim = false.
Proof.
  intros H1 H2; unfold contains; simpl.
  apply String.eqb_neq in H1; apply String.eqb_neq in H2.
  now rewrite H1, H2.
Qed.

(** C2, as amended: with a simulation name outside the known set the run
    makes exactly one call, [makedirs] of the output directory, and then
    raises the ValueError of line 116 (or the exception of [makedirs]);
    nothing is copied and no environment, buffer or agent is built. *)
Theorem unknown_simulation_rejected (args : Args)
    (Hcyl : simulation args <> "rotatingCylinder2D"%string)
    (Hpin : simulation args <> "rotatingPinball2D"%string) :
  forall W (h : handler W) (w : W),
    (trace_of h (main BASE_PATH args) w = [ok (makedirs (output args) true) tt] /\
     outcome_of h (main BASE_PATH args) w
     = Raised (ValueError (unknown_simulation_msg (simulation args))))
    \/ (exists x,
          trace_of h (main BASE_PATH args) w = [Event (makedirs (output args) true) (inl x)] /\
          outcome_of h (main BASE_PATH args) w = Raised x).
Proof.
  intros W h w.
  apply (sat_run h (main BASE_PATH args)
           (fun tr o =>
              (tr = [ok (makedirs (output args) true) tt] /\
               o = Raised (ValueError (unknown_simulation_msg (simulation args))))
              \/ (exists x, tr = [Event (makedirs (output args) true) (inl x)] /\
                            o = Raised x))).
  unfold main, make_base_env.
  rewrite (unknown_simulation _ Hcyl Hpin).
  sat_explore.
  - right; eauto.
  - left; destruct r; split; reflexivity.
Qed.

(** C5, as amended: with a backend name whose lower-case form is neither
    'local' nor 'slurm', no run
    builds a buffer or an agent or launches a trial, and a run whose calls
    all return ends in a ValueError: the unknown-executer error of line 138
    when the simulation name is known. *)
Theorem unknown_backend_rejected (args : Args)
    (Hlocal : lower (environment args) <> "local"%string)
    (Hslurm : lower (environment args) <> "slurm"%string) :
  forall W (h : handler W) (w : W),
    existsb builds_or_launches (trace_of h (main BASE_PATH args) w) = false /\
    (forallb is_ok (trace_of h (main BASE_PATH args) w) = true ->
     outcome_of h (main BASE_PATH args) w
     = Raised (ValueError
                 (if contains (keys SIMULATION_ENVIRONMENTS) (simulation args)
                  then unknown_executer_msg (lower (environment args))
                  else unknown_simulation_msg (simulation args)))).
Proof.
  intros W h w.
  apply (sat_run h (main BASE_PATH args)
           (fun tr o =>
              existsb builds_or_launches tr = false /\
              (forallb is_ok tr = true ->
               o = Raised (ValueError
                             (if contains (keys SIMULATION_ENVIRONMENTS) (simulation args)
                              then unknown_executer_msg (lower (environment args))
                              else unknown_simulation_msg (simulation args)))))).
  unfold main, make_base_env, create_buffer.
  apply String.eqb_neq in Hlocal; apply String.eqb_neq in Hslurm.
  rewrite Hlocal, Hslurm.
  destruct (contains (keys SIMULATION_ENVIRONMENTS) (simulation args)) eqn:Hsim.
  - destruct (known_simulation_getitem _ Hsim) as [Henv _].
    destruct (getitem SIMULATION_ENVIRONMENTS (simulation args)) as [cls |];
      [ | congruence ].
    cbn [negb].
    sat_explore; (split; [ reflexivity | cbn; intro; try discriminate; reflexivity ]).
  - cbn [negb].
    sat_explore; (split; [ reflexivity | cbn; intro; try discriminate; reflexivity ]).
Qed.

(** ** The backend selector *)

Lemma lower_canonical (s : string) :
  s = "local"%string \/ s = "slurm"%string -> lower s = s.
Proof. intros [-> | ->]; reflexivity. Qed.

(** * Beyond the claims *)

(** ** More about the loop *)

Lemma loop_call_quiet (tr : list event) :
  forallb loop_call tr = true ->
  flat_map probe_answer tr = [] /\ flat_map copied tr = [] /\
  flat_map env_made tr = [] /\ flat_map ranks_answer tr = [] /\
  flat_map config_call tr = [] /\ flat_map config_made tr = [] /\
  flat_map buffer_construction tr = [] /\ flat_map agent_construction tr = [] /\
  flat_map n_states_answer tr = [] /\ flat_map n_actions_answer tr = [] /\
  flat_map bounds_answer tr = [] /\ flat_map path_answer tr = [] /\
  flat_map initialisation tr = [] /\ flat_map clock tr = [].
Proof.
  induction tr as [| ev tr IH]; [ repeat split; reflexivity | ].
  cbn [forallb flat_map]; intro H; apply andb_prop in H as [Hev Htr].
  destruct (IH Htr) as (I1 & I2 & I3 & I4 & I5 & I6 & I7 & I8 & I9 & I10 & I11
                        & I12 & I13 & I14).
  rewrite I1, I2, I3, I4, I5, I6, I7, I8, I9, I10, I11, I12, I13, I14.
  destruct ev as [R c r]; destruct c; try discriminate Hev; repeat split; reflexivity.
Qed.

Ltac solve_episode_raise :=
  unfold episode_raise; simpl;
  split; [ reflexivity | ];
  split;
  [ let Hok := fresh "Hok" in
    intro Hok;
    first [ discriminate Hok
          | split; [ reflexivity | eexists; split; [ reflexivity | assumption ] ] ]
  | split; solve_prefix ].

Lemma episode_raises (training_path : string) (episodes : Z)
    (buf : Buffer) (agent : Agent) (e : Z) :
  sat (episode training_path episodes buf agent e)
      (fun tr o =>
         match o with
         | Returned _ => episode_ok training_path episodes buf agent e tr
         | Raised x => episode_raise tr x
         end).
Proof.
  unfold episode.
  sat_explore; try solve_episode_raise.
  match goal with
  | |- sat (bind (print_statistics ?a ?r) _) _ =>
      destruct (print_statistics_cases a r) as [(Ha & Hr & msg & Hmsg) | (Hemp & Hraise)]
  end.
  - rewrite Hmsg.
    sat_explore; try solve_episode_raise; solve_episode_ok msg.
  - rewrite Hraise.
    sat_explore; solve_episode_raise.
Qed.

Lemma training_loop_raises (training_path : string) (episodes : Z)
    (buf : Buffer) (agent : Agent) (start : Z) :
  sat (training_loop training_path episodes buf agent start)
      (loop_run (episode_ok training_path episodes buf agent) (fun _ => episode_raise)
                (Z.to_nat (episodes - start)) start).
Proof.
  unfold training_loop.
  apply (sat_for_episodes _ (episode_ok training_path episodes buf agent)
           (fun _ => episode_raise)).
  intro e; apply episode_raises.
Qed.

Lemma episode_sequence_policies training_path episodes buf agent e d :
  let tr := episode_sequence training_path episodes buf agent e d in
  flat_map traced tr = [ep_policy d] /\
  flat_map pushed tr = [ep_policy d] /\
  flat_map saved tr = [ep_policy d].
Proof.
  unfold episode_sequence; destruct (e =? episodes - 1); simpl;
    repeat split; reflexivity.
Qed.

(** Every run of the loop: how it ends when all its calls return, and where
    the policies go. *)
Lemma loop_run_endings training_path episodes buf agent n e tr o :
  loop_run (episode_ok training_path episodes buf agent) (fun _ => episode_raise)
           n e tr o ->
  forallb loop_call tr = true /\
  (forallb is_ok tr = true ->
   (o = Returned tt /\ Forall nonempty_batch (flat_map observed tr))
   \/ (o = Raised (ZeroDivisionError "division by zero") /\
       exists b, In b (flat_map observed tr) /\ empty_batch b)) /\
  (exists j, flat_map pushed tr = firstn j (flat_map traced tr)) /\
  (exists j, flat_map saved tr = firstn j (flat_map pushed tr)).
Proof.
  induction 1 as [e | n e tr1 tr2 o Hok Hrest IH | n e tr x Hfail].
  - split; [ reflexivity | ].
    split; [ intros _; left; split; [ reflexivity | constructor ] | ].
    split; exists 0%nat; reflexivity.
  - destruct Hok as (d & -> & Ha & Hr & _).
    destruct (episode_sequence_projections training_path episodes buf agent e d)
      as (H1 & H2 & _ & _ & _ & _ & H5 & _).
    destruct (episode_sequence_policies training_path episodes buf agent e d)
      as (P1 & P2 & P3).
    destruct IH as (I1 & I2 & [j3 I3] & [j4 I4]).
    rewrite !forallb_app, !flat_map_app, H1, H2, I1, H5, P1, P2, P3.
    split; [ reflexivity | ].
    split.
    { intro Hok; destruct (I2 Hok) as [[-> Hall] | [-> (b & Hin & Hb)]].
      - left; split; [ reflexivity | ].
        constructor; [ split; assumption | exact Hall ].
      - right; split; [ reflexivity | ].
        exists b; split; [ now right | exact Hb ]. }
    split; [ exists (S j3); rewrite I3 | exists (S j4); rewrite I4 ]; reflexivity.
  - destruct Hfail as (F1 & F2 & F3 & F4).
    split; [ exact F1 | ].
    split; [ | split; assumption ].
    intro Hok; destruct (F2 Hok) as [-> (b & Hobs & Hb)].
    right; split; [ reflexivity | ].
    exists b; split; [ rewrite Hobs; now left | exact Hb ].
Qed.

Lemma loop_run_zero (body_ok : Z -> list event -> Prop)
    (body_fail : Z -> list event -> exn -> Prop) e tr o :
  loop_run body_ok body_fail O e tr o -> tr = [] /\ o = Returned tt.
Proof. inversion 1; split; reflexivity. Qed.

Ltac enter_loop' Hloop :=
  lazymatch goal with
  | |- sat (bind (training_loop _ _ _ _ _) _) _ =>
      apply sat_bind; eapply sat_mono; [ | apply training_loop_raises ];
      let tr := fresh "tr_loop" in
      let x := fresh "x" in
      intros tr [[] | x] Hloop
  end.

(** ** How a run ends *)

Lemma last_item_inl (l : list Z) (x : exn) :
  last_item l = inl x -> l = [] /\ x = IndexError "list index out of range".
Proof.
  unfold last_item; destruct (rev l) as [| k r] eqn:Hrev; [ | discriminate ].
  intros [= <-]; split; [ | reflexivity ].
  apply (f_equal (@rev Z)) in Hrev; now rewrite rev_involutive in Hrev.
Qed.

Lemma truthy_nonempty (s : string) : truthy s = true -> s <> ""%string.
Proof.
  unfold truthy; intros H ->; discriminate H.
Qed.

Ltac all_ok Hok :=
  simpl in Hok; rewrite ?forallb_app in Hok; simpl in Hok;
  rewrite ?andb_true_r, ?andb_false_r in Hok.

Ltac branch_facts :=
  repeat match goal with
         | H : negb _ = true |- _ => apply negb_true_iff in H
         | H : negb _ = false |- _ => apply negb_false_iff in H
         | H : String.eqb _ _ = true |- _ => apply String.eqb_eq in H
         | H : String.eqb _ _ = false |- _ => apply String.eqb_neq in H
         | H : truthy _ = true |- _ => apply truthy_nonempty in H
         end.

(** X1: a run all of whose calls return ends in one of five ways: the
    ValueError of an unknown simulation name, the ValueError of an unknown
    backend (the simulation being known), the IndexError of an empty loaded
    history, the ZeroDivisionError of a batch without action or reward
    trajectories, or it returns, with a known simulation, a valid backend
    and only non-empty batches.  In particular [main] never raises a
    KeyError of its own: every registered simulation has a default
    configuration. *)
Theorem own_exceptions (args : Args) :
  forall W (h : handler W) (w w' : W) tr o,
    run h (main BASE_PATH args) w = (tr, o, w') ->
    forallb is_ok tr = true ->
    own_ending args tr o.
Proof.
  intros W h w w' tr o Hrun; by_sat Hrun.
  unfold_main.
  sat_explore.
  all: try (intro Hok; discriminate Hok).
  all: try (enter_loop' Hloop;
            destruct (loop_run_endings _ _ _ _ _ _ _ _ Hloop) as (_ & Hend & _);
            sat_explore).
  all: intro Hok; all_ok Hok; try discriminate Hok.
  all: branch_facts.
  all: try (apply ends_unknown_simulation; assumption).
  all: try (apply ends_unknown_executer; assumption).
  all: try match goal with
           | Hc : contains _ _ = true, Hn : getitem _ _ = None |- _ =>
               exfalso; destruct (known_simulation_getitem _ Hc); congruence
           end.
  all: try match goal with
           | Hl : last_item _ = inl _ |- _ =>
               apply last_item_inl in Hl; destruct Hl as [-> ->];
               apply ends_empty_history; [ assumption | reflexivity ]
           end.
  all: destruct (Hend Hok) as [[Ho Hall] | [Ho (b & Hin & Hb)]];
    try discriminate Ho.
  all: try (injection Ho as ->; apply (ends_empty_batch _ _ b); [ | exact Hb ];
            project; exact Hin).
  all: repeat match goal with u : unit |- _ => destruct u end.
  all: apply ends_returned; [ assumption | auto | project; exact Hall ].
Qed.


(** X2: when the loaded history is empty, [history[-1]] raises IndexError:
    the run ends there, [buffer._n_fills] is not assigned and the buffer is
    neither reset nor filled. *)
Theorem empty_history_stops (args : Args) :
  forall W (h : handler W) (w w' : W) tr o,
    run h (main BASE_PATH args) w = (tr, o, w') ->
    In [] (flat_map history_answer tr) ->
    o = Raised (IndexError "list index out of range") /\
    flat_map n_fills_written tr = [] /\
    existsb is_reset_or_fill tr = false.
Proof.
  intros W h w w' tr o Hrun; by_sat Hrun.
  unfold_main.
  sat_explore.
  all: try (enter_loop' Hloop;
            destruct (loop_run_endings _ _ _ _ _ _ _ _ Hloop) as (Halpha & _);
            destruct (loop_call_silent _ Halpha) as (Hq1 & _);
            sat_explore).
  all: intro Hin; simpl in Hin; rewrite ?flat_map_app, ?Hq1 in Hin; simpl in Hin.
  all: repeat match goal with
              | H : _ \/ _ |- _ => destruct H
              | H : False |- _ => destruct H
              end.
  all: subst.
  all: match goal with
       | H : last_item [] = _ |- _ => cbv in H; first [ discriminate H | injection H as <- ]
       end.
  all: repeat split; reflexivity.
Qed.

(** ** The base case *)

(** X3: the base case is copied exactly when [exists] answered that
    [<output>/base] is absent, from
    [<BASE_PATH>/openfoam/test_cases/<simulation>] into the probed path and
    with [dirs_exist_ok]; when it answered that the directory is there,
    no run calls [copytree]. *)
Theorem base_case_copy_guarded (args : Args) :
  forall W (h : handler W) (w : W),
    flat_map copied (trace_of h (main BASE_PATH args) w)
    = flat_map (fun pb : string * bool =>
                  if snd pb then []
                  else [(join BASE_PATH ["openfoam"; "test_cases"; simulation args]%string,
                         fst pb, true)])
               (flat_map probe_answer (trace_of h (main BASE_PATH args) w)) /\
    (flat_map probe_answer (trace_of h (main BASE_PATH args) w) = []
     \/ exists b, flat_map probe_answer (trace_of h (main BASE_PATH args) w)
                  = [(join (output args) ["base"%string], b)]).
Proof.
  intros W h w.
  apply (sat_run h (main BASE_PATH args)
           (fun tr _ =>
              flat_map copied tr
              = flat_map (fun pb : string * bool =>
                            if snd pb then []
                            else [(join BASE_PATH
                                     ["openfoam"; "test_cases"; simulation args]%string,
                                   fst pb, true)])
                         (flat_map probe_answer tr) /\
              (flat_map probe_answer tr = []
               \/ exists b, flat_map probe_answer tr
                            = [(join (output args) ["base"%string], b)]))).
  unfold_main.
  sat_explore.
  all: try (enter_loop' Hloop;
            destruct (loop_run_endings _ _ _ _ _ _ _ _ Hloop) as (Halpha & _);
            destruct (loop_call_quiet _ Halpha) as (Hq1 & Hq2 & _);
            sat_explore).
  all: project; rewrite ?Hq1, ?Hq2; simpl.
  all: repeat match goal with
              | b : bool |- _ => destruct b
              end; try discriminate.
  all: split; [ reflexivity | first [ left; reflexivity | right; eexists; reflexivity ] ].
Qed.

(** ** The buffer and the agent *)

Ltac pick_in :=
  simpl; repeat first [ left; reflexivity | right ]; try reflexivity.

(** X4: a run builds at most one buffer; it is of the backend that the
    lower-cased name selects and receives the output directory, the
    environment made in this run, and the buffer size, runner count and
    timeout of the command line.  A [SlurmConfig] takes its tasks per node
    from [env.mpi_ranks] and one node, and the buffer of the cluster receives
    a configuration made in this run; with the local backend neither
    [mpi_ranks] is read nor a [SlurmConfig] built. *)
Theorem buffer_built_as_configured (args : Args) :
  forall W (h : handler W) (w : W),
    (List.length (flat_map buffer_construction (trace_of h (main BASE_PATH args) w))
     <= 1)%nat /\
    Forall (buffer_as_configured args (trace_of h (main BASE_PATH args) w))
           (flat_map buffer_construction (trace_of h (main BASE_PATH args) w)) /\
    Forall (fun nc : Z * Z =>
              In (fst nc) (flat_map ranks_answer (trace_of h (main BASE_PATH args) w)) /\
              snd nc = 1)
           (flat_map config_call (trace_of h (main BASE_PATH args) w)) /\
    (lower (environment args) = "local"%string ->
     flat_map ranks_answer (trace_of h (main BASE_PATH args) w) = [] /\
     flat_map config_call (trace_of h (main BASE_PATH args) w) = []).
Proof.
  intros W h w.
  apply (sat_run h (main BASE_PATH args)
           (fun tr _ =>
              (List.length (flat_map buffer_construction tr) <= 1)%nat /\
              Forall (buffer_as_configured args tr) (flat_map buffer_construction tr) /\
              Forall (fun nc : Z * Z =>
                        In (fst nc) (flat_map ranks_answer tr) /\ snd nc = 1)
                     (flat_map config_call tr) /\
              (lower (environment args) = "local"%string ->
               flat_map ranks_answer tr = [] /\ flat_map config_call tr = []))).
  unfold_main.
  sat_explore.
  all: try (enter_loop' Hloop;
            destruct (loop_run_endings _ _ _ _ _ _ _ _ Hloop) as (Halpha & _);
            destruct (loop_call_quiet _ Halpha)
              as (_ & _ & _ & Hq4 & Hq5 & _ & Hq7 & _);
            sat_explore).
  all: branch_facts.
  all: split; [ project; rewrite ?Hq7; simpl; lia | ].
  all: split;
    [ project; rewrite ?Hq7; simpl;
      repeat constructor; try assumption; pick_in
    | ].
  all: split;
    [ project; rewrite ?Hq5; simpl;
      repeat constructor; pick_in
    | ].
  all: intro Hlocal; try congruence.
  all: project; rewrite ?Hq4, ?Hq5; split; reflexivity.
Qed.

(** X5: a run builds at most one agent, from what the environment answers:
    the first [n_states] and [n_actions], the negation of the first answer
    of [action_bounds] as lower bound and its second answer as upper bound,
    and the entry of [DEFAULT_CONFIG] for the simulation. *)
Theorem agent_built_as_read (args : Args) :
  forall W (h : handler W) (w : W),
    (List.length (flat_map agent_construction (trace_of h (main BASE_PATH args) w))
     <= 1)%nat /\
    Forall (agent_as_read args (trace_of h (main BASE_PATH args) w))
           (flat_map agent_construction (trace_of h (main BASE_PATH args) w)).
Proof.
  intros W h w.
  apply (sat_run h (main BASE_PATH args)
           (fun tr _ =>
              (List.length (flat_map agent_construction tr) <= 1)%nat /\
              Forall (agent_as_read args tr) (flat_map agent_construction tr))).
  unfold_main.
  sat_explore.
  all: try (enter_loop' Hloop;
            destruct (loop_run_endings _ _ _ _ _ _ _ _ Hloop) as (Halpha & _);
            destruct (loop_call_quiet _ Halpha)
              as (_ & _ & _ & _ & _ & _ & _ & Hq8 & _);
            sat_explore).
  all: split; [ project; rewrite ?Hq8; simpl; lia | ].
  all: project; rewrite ?Hq8; simpl; repeat constructor.
  all: do 3 eexists; repeat split; try reflexivity; assumption.
Qed.

(** ** Initialisation *)

(** X6: without a checkpoint a run never loads agent state, reads the
    history or assigns [buffer._n_fills]; it creates the dummy policy, from
    what the environment answered for its dimensions, path and bounds, and
    then calls [buffer.prepare], each at most once and both before the first
    reset or fill. *)
Theorem fresh_initialisation_order (args : Args)
    (Hfresh : checkpoint args = ""%string) :
  forall W (h : handler W) (w : W),
    fresh_initialisation (trace_of h (main BASE_PATH args) w)
      (flat_map initialisation (trace_of h (main BASE_PATH args) w)) /\
    (existsb is_reset_or_fill (trace_of h (main BASE_PATH args) w) = true ->
     flat_map initialisation
       (before_first is_reset_or_fill (trace_of h (main BASE_PATH args) w))
     = flat_map initialisation (trace_of h (main BASE_PATH args) w) /\
     List.length (flat_map initialisation (trace_of h (main BASE_PATH args) w)) = 2%nat).
Proof.
  intros W h w.
  apply (sat_run h (main BASE_PATH args)
           (fun tr _ =>
              fresh_initialisation tr (flat_map initialisation tr) /\
              (existsb is_reset_or_fill tr = true ->
               flat_map initialisation (before_first is_reset_or_fill tr)
               = flat_map initialisation tr /\
               List.length (flat_map initialisation tr) = 2%nat))).
  unfold_main; rewrite Hfresh; cbn [truthy String.eqb negb].
  sat_explore.
  all: try (enter_loop' Hloop;
            destruct (loop_run_endings _ _ _ _ _ _ _ _ Hloop) as (Halpha & _);
            destruct (loop_call_quiet _ Halpha)
              as (_ & _ & _ & _ & _ & _ & _ & _ & _ & _ & _ & _ & Hq13 & _);
            sat_explore).
  all: split;
    [ project; rewrite ?Hq13; simpl;
      first [ exact I | repeat split; first [ pick_in | tauto ] ]
    | intro Hreach; simpl in Hreach; try discriminate Hreach;
      project; rewrite ?Hq13; split; reflexivity ].
Qed.

(** X7: with a checkpoint a run loads the agent state from
    [join(output, checkpoint)], then reads the history, then assigns the
    starting episode to [buffer._n_fills], each at most once and all three
    before the first reset or fill. *)
Theorem resumed_initialisation_order (args : Args)
    (Hck : checkpoint args <> ""%string) :
  forall W (h : handler W) (w : W),
    resumed_initialisation args (trace_of h (main BASE_PATH args) w)
      (flat_map initialisation (trace_of h (main BASE_PATH args) w)) /\
    (existsb is_reset_or_fill (trace_of h (main BASE_PATH args) w) = true ->
     flat_map initialisation
       (before_first is_reset_or_fill (trace_of h (main BASE_PATH args) w))
     = flat_map initialisation (trace_of h (main BASE_PATH args) w) /\
     List.length (flat_map initialisation (trace_of h (main BASE_PATH args) w)) = 3%nat).
Proof.
  intros W h w.
  pose proof (nonempty_truthy _ Hck) as Htruthy.
  apply (sat_run h (main BASE_PATH args)
           (fun tr _ =>
              resumed_initialisation args tr (flat_map initialisation tr) /\
              (existsb is_reset_or_fill tr = true ->
               flat_map initialisation (before_first is_reset_or_fill tr)
               = flat_map initialisation tr /\
               List.length (flat_map initialisation tr) = 3%nat))).
  unfold_main; rewrite Htruthy.
  sat_explore.
  all: try (enter_loop' Hloop;
            destruct (loop_run_endings _ _ _ _ _ _ _ _ Hloop) as (Halpha & _);
            destruct (loop_call_quiet _ Halpha)
              as (_ & _ & _ & _ & _ & _ & _ & _ & _ & _ & _ & _ & Hq13 & _);
            destruct (loop_call_silent _ Halpha) as (Hq1 & _);
            sat_explore).
  all: split;
    [ unfold resumed_initialisation; project; rewrite ?Hq13; simpl;
      unfold starting_episode_of; project; rewrite ?Hq1; simpl;
      repeat match goal with
             | H : last_item _ = _ |- _ => rewrite H
             end;
      first [ exact I | split; [ reflexivity | tauto ] ]
    | intro Hreach; simpl in Hreach; try discriminate Hreach;
      project; rewrite ?Hq13; split; reflexivity ].
Qed.

(** ** The training time *)

Ltac before_tail L :=
  lazymatch L with
  | ?t ++ [_; _] => t
  | ?x :: ?rest => let p := before_tail rest in constr:(x :: p)
  end.

(** X8: the clock is read at most twice; its first reading comes after the
    reset of line 161 and before any fill, and a run that returns ends with
    the second reading followed by the message
    ["Training time (s): " ++ str(t1 - t0)]: the time of the set-up and of
    [buffer.prepare] is not counted. *)
Theorem training_time_measured (args : Args) :
  forall W (h : handler W) (w w' : W) tr o,
    run h (main BASE_PATH args) w = (tr, o, w') ->
    (List.length (flat_map clock tr) <= 2)%nat /\
    (existsb is_clock tr = true ->
     flat_map fill_reset (before_first is_clock tr) = [OpReset]) /\
    (o = Returned tt ->
     exists pre t0 t1,
       tr = pre ++ training_time_tail t0 t1 /\ flat_map clock pre = [t0]).
Proof.
  intros W h w w' tr o Hrun; by_sat Hrun.
  unfold_main.
  sat_explore.
  all: try (enter_loop' Hloop;
            destruct (loop_run_endings _ _ _ _ _ _ _ _ Hloop) as (Halpha & _);
            destruct (loop_call_quiet _ Halpha)
              as (_ & _ & _ & _ & _ & _ & _ & _ & _ & _ & _ & _ & _ & Hq14);
            sat_explore).
  all: split; [ project; rewrite ?Hq14; simpl; lia | ].
  all: split;
    [ let H := fresh in intro H; simpl in H; try discriminate H; reflexivity | ].
  all: try discriminate.
  all: intros _; repeat match goal with u : unit |- _ => destruct u end.
  all: match goal with
       | |- exists pre, exists t0 t1, ?L = _ /\ _ =>
           let p := before_tail L in exists p
       end.
  all: do 2 eexists; split; [ reflexivity | project; rewrite Hq14; reflexivity ].
Qed.

(** ** Runs with nothing left to train *)

(** X9: when [episodes] is not greater than the starting episode (0, or
    one more than the last entry of the loaded history), no run fills the
    buffer, updates the agent or writes a checkpoint or policy file; a run
    that returns has only made the reset of line 161. *)
Theorem no_episode_when_done (args : Args) :
  forall W (h : handler W) (w w' : W) tr o,
    run h (main BASE_PATH args) w = (tr, o, w') ->
    iter args <= starting_episode_of tr ->
    existsb episode_step tr = false /\
    (o = Returned tt -> flat_map fill_reset tr = [OpReset]).
Proof.
  intros W h w w' tr o Hrun; by_sat Hrun.
  unfold_main.
  sat_explore.
  all: try (intros _; split; [ reflexivity | discriminate ]).
  all: enter_loop' Hloop;
    destruct (loop_run_endings _ _ _ _ _ _ _ _ Hloop) as (Halpha & _);
    destruct (loop_call_silent _ Halpha) as (Hq1 & _);
    sat_explore.
  all: intro Hle; unfold starting_episode_of in Hle;
    simpl in Hle; rewrite ?flat_map_app, ?Hq1 in Hle; simpl in Hle;
    repeat match goal with
           | H : last_item _ = _ |- _ => rewrite H in Hle
           end.
  all: match type of Hloop with
       | loop_run _ _ ?n _ _ _ =>
           replace n with O in Hloop by lia
       end;
    apply loop_run_zero in Hloop; destruct Hloop as [-> Ho]; try discriminate Ho.
  all: split; [ reflexivity | first [ discriminate | intros _; reflexivity ] ].
Qed.

(** ** The files of any run that returns *)

Lemma checkpoint_policy_apart (training_path : string) (a b : Z) :
  checkpoint_path training_path a <> policy_path training_path b.
Proof.
  unfold checkpoint_path, policy_path, join; cbn [fold_left]; unfold join_step.
  cbn [startswith_sep append].
  destruct (orb _ _); intro H; apply append_inj_l in H; discriminate H.
Qed.

(** X10: a run that returns, fresh or resumed, writes the checkpoint and
    the policy file of exactly the episodes from the starting episode to
    [episodes - 1], and these file names are pairwise different: no policy
    file has the name of a checkpoint. *)
Theorem run_files_distinct (args : Args) :
  forall W (h : handler W) (w w' : W) tr,
    run h (main BASE_PATH args) w = (tr, Returned tt, w') ->
    flat_map checkpoint_written tr
    = map (checkpoint_path (output args))
          (range (starting_episode_of tr)
                 (Z.to_nat (iter args - starting_episode_of tr))) /\
    flat_map policy_saved tr
    = map (policy_path (output args))
          (range (starting_episode_of tr)
                 (Z.to_nat (iter args - starting_episode_of tr))) /\
    NoDup (flat_map checkpoint_written tr ++ flat_map policy_saved tr).
Proof.
  intros W h w w' tr Hrun.
  assert (Hgen : forall o,
             run h (main BASE_PATH args) w = (tr, o, w') ->
             o = Returned tt ->
             flat_map checkpoint_written tr
             = map (checkpoint_path (output args))
                   (range (starting_episode_of tr)
                          (Z.to_nat (iter args - starting_episode_of tr))) /\
             flat_map policy_saved tr
             = map (policy_path (output args))
                   (range (starting_episode_of tr)
                          (Z.to_nat (iter args - starting_episode_of tr)))).
  { clear Hrun; intros o Hrun; by_sat Hrun.
    unfold_main.
    sat_explore; try discriminate.
    all: enter_loop Hloop; [ | discriminate ].
    all: destruct (loop_returned_projections _ _ _ _ _ _ _ Hloop)
        as (Halpha & _ & H1 & H2 & _);
      destruct (loop_call_silent _ Halpha) as (Hq1 & _).
    all: sat_explore; try discriminate.
    all: intros _; unfold starting_episode_of; project; rewrite ?Hq1; simpl;
      repeat match goal with
             | H : last_item _ = _ |- _ => rewrite H
             end;
      split; assumption. }
  destruct (Hgen _ Hrun eq_refl) as [Hckpt Hpol].
  split; [ exact Hckpt | split; [ exact Hpol | ] ].
  rewrite Hckpt, Hpol.
  apply NoDup_app.
  - apply Injective_map_NoDup; [ apply checkpoint_path_injective | apply range_NoDup ].
  - apply Injective_map_NoDup; [ apply policy_path_injective | apply range_NoDup ].
  - intros p Hc Hp.
    apply in_map_iff in Hc as (a & <- & _).
    apply in_map_iff in Hp as (b & Heq & _).
    exact (checkpoint_policy_apart _ _ _ (eq_sym Heq)).
Qed.

(** ** The policies *)

(** X11: in every run each policy handed to [buffer.update_policy] is the
    one [agent.trace_policy] answered in that episode, and each policy whose
    [save] is called is the one that was pushed. *)
Theorem policy_flow (args : Args) :
  forall W (h : handler W) (w : W),
    (exists j,
        flat_map pushed (trace_of h (main BASE_PATH args) w)
        = firstn j (flat_map traced (trace_of h (main BASE_PATH args) w))) /\
    (exists j,
        flat_map saved (trace_of h (main BASE_PATH args) w)
        = firstn j (flat_map pushed (trace_of h (main BASE_PATH args) w))).
Proof.
  intros W h w.
  apply (sat_run h (main BASE_PATH args)
           (fun tr _ =>
              (exists j, flat_map pushed tr = firstn j (flat_map traced tr)) /\
              (exists j, flat_map saved tr = firstn j (flat_map pushed tr)))).
  unfold_main.
  sat_explore; try (split; exists 0%nat; reflexivity).
  all: enter_loop' Hloop;
    destruct (loop_run_endings _ _ _ _ _ _ _ _ Hloop) as (_ & _ & [j1 H1] & [j2 H2]);
    sat_explore.
  all: split; [ exists j1 | exists j2 ]; project; assumption.
Qed.

(** ** The order of the set-up *)

Lemma loop_call_quiet_setup (tr : list event) :
  forallb loop_call tr = true -> flat_map setup tr = [].
Proof.
  induction tr as [| ev tr IH]; [ reflexivity | ].
  cbn [forallb flat_map]; intro H; apply andb_prop in H as [Hev Htr].
  rewrite (IH Htr).
  destruct ev as [R c r]; destruct c; try discriminate Hev; reflexivity.
Qed.

Ltac find_prefix j fuel :=
  lazymatch fuel with
  | O => fail "no prefix"
  | S ?fuel' =>
      first [ exists j, true; reflexivity
            | exists j, false; reflexivity
            | find_prefix (S j) fuel' ]
  end.

(** X12: the set-up runs in a fixed order: output directory, probe of the
    base case, copy if absent, environment, its path, finish-time check,
    buffer, agent.  In particular, before the first buffer is built the
    environment exists with its path set to [<output>/base] and the
    finish-time check has returned. *)
Theorem setup_in_order (args : Args) :
  forall W (h : handler W) (w : W),
    (exists j copy,
        flat_map setup (trace_of h (main BASE_PATH args) w)
        = firstn j (setup_plan BASE_PATH args copy)) /\
    (existsb builds_or_launches (trace_of h (main BASE_PATH args) w) = true ->
     exists copy : bool,
       flat_map setup
         (before_first builds_or_launches (trace_of h (main BASE_PATH args) w))
       = firstn (if copy then 6%nat else 5%nat) (setup_plan BASE_PATH args copy)).
Proof.
  intros W h w.
  apply (sat_run h (main BASE_PATH args)
           (fun tr _ =>
              (exists j copy,
                  flat_map setup tr = firstn j (setup_plan BASE_PATH args copy)) /\
              (existsb builds_or_launches tr = true ->
               exists copy : bool,
                 flat_map setup (before_first builds_or_launches tr)
                 = firstn (if copy then 6%nat else 5%nat) (setup_plan BASE_PATH args copy)))).
  unfold_main.
  sat_explore.
  all: try (enter_loop' Hloop;
            destruct (loop_run_endings _ _ _ _ _ _ _ _ Hloop) as (Halpha & _);
            pose proof (loop_call_quiet_setup _ Halpha) as Hq;
            sat_explore).
  all: split;
    [ project; rewrite ?Hq; simpl; find_prefix 0%nat 10%nat
    | let H := fresh in
      intro H; simpl in H; try discriminate H;
      first [ exists true; reflexivity | exists false; reflexivity ] ].
Qed.

(** ** The backend selector, in the run *)

(** C10: the backend name is lower-cased before it is compared.  Whatever
    the spelling, when its lower-case form is 'local' or 'slurm' and the
    simulation is known, a run all of whose calls return builds exactly one
    buffer, the one of that backend, on the output directory and with the
    sizes and the timeout of the command line, and does not end in a
    ValueError; the program is the one of the canonical name. *)
Theorem backend_case_insensitive (args : Args) (s canonical : string)
    (Hcanon : canonical = "local"%string \/ canonical = "slurm"%string)
    (Hlower : lower s = canonical)
    (Hsim : contains (keys SIMULATION_ENVIRONMENTS) (simulation args) = true) :
  main BASE_PATH (set_environment args s)
  = main BASE_PATH (set_environment args canonical) /\
  (forall training_path env buffer_size n_runners timeout,
      create_buffer BASE_PATH (lower s) training_path env buffer_size n_runners timeout
      = if String.eqb canonical "local" then
          perform (new_LocalBuffer training_path env buffer_size n_runners timeout)
        else
          bind (perform (env_mpi_ranks env)) (fun ranks =>
          bind (perform (new_SlurmConfig ranks 1 "03:00:00" "drl_train"
                  ["development/24.04 GCC/12.3.0"%string; "OpenMPI/4.1.5"%string;
                   "OpenFOAM/v2312"%string]
                  ["source $FOAM_BASH"%string;
                   ("source " ++ BASE_PATH ++ "/setup-env")%string])) (fun config =>
          perform (new_SlurmBuffer training_path env buffer_size n_runners config timeout)))) /\
  (forall W (h : handler W) (w w' : W) tr o,
      run h (main BASE_PATH (set_environment args s)) w = (tr, o, w') ->
      forallb is_ok tr = true ->
      (canonical = "local"%string ->
       exists e,
         In e (flat_map env_made tr) /\
         flat_map buffer_construction tr
         = [LocalBuilt (output args) e (buffer args) (runners args) (timeout args)]) /\
      (canonical = "slurm"%string ->
       exists e ranks cfg,
         In e (flat_map env_made tr) /\
         flat_map ranks_answer tr = [ranks] /\
         flat_map config_call tr = [(ranks, 1)] /\
         flat_map config_made tr = [cfg] /\
         flat_map buffer_construction tr
         = [SlurmBuilt (output args) e (buffer args) (runners args) cfg (timeout args)]) /\
      (forall msg, o <> Raised (ValueError msg))).
Proof.
  split; [ | split ].
  - unfold main; cbn [environment set_environment output iter buffer runners
                        finish timeout checkpoint simulation].
    now rewrite Hlower, (lower_canonical canonical Hcanon).
  - intros; rewrite Hlower.
    destruct Hcanon as [-> | ->]; reflexivity.
  - intros W h w w' tr o Hrun; by_sat Hrun.
    unfold_main.
    cbn [environment set_environment output iter buffer runners
           finish timeout checkpoint simulation].
    rewrite Hlower, Hsim; cbn [negb].
    destruct (known_simulation_getitem _ Hsim) as [Henv Hcfg].
    destruct (getitem SIMULATION_ENVIRONMENTS (simulation args)) as [cls |];
      [ | congruence ].
    destruct (getitem DEFAULT_CONFIG (simulation args)) as [cfg0 |];
      [ | congruence ].
    clear Henv Hcfg.
    destruct Hcanon as [-> | ->].
    + change (String.eqb "local" "local") with true; cbv iota.
      sat_explore.
      all: try (intro Hok; discriminate Hok).
      all: try (enter_loop' Hloop;
                destruct (loop_run_endings _ _ _ _ _ _ _ _ Hloop) as (Halpha & Hend & _);
                destruct (loop_call_quiet _ Halpha)
                  as (_ & _ & Hq3 & _ & _ & _ & Hq7 & _);
                sat_explore).
      all: intro Hok; all_ok Hok; try discriminate Hok.
      all: split;
        [ intros _; eexists; split;
          [ project; rewrite ?Hq3; pick_in
          | project; rewrite ?Hq7; reflexivity ]
        | split; [ discriminate | ] ].
      all: try match goal with
               | Hl : last_item _ = inl _ |- _ =>
                   apply last_item_inl in Hl; destruct Hl as [_ ->]
               end.
      all: try (intros msg; discriminate).
      all: destruct (Hend Hok) as [[Ho _] | [Ho _]]; try discriminate Ho.
      all: injection Ho as ->; intros msg; discriminate.
    + change (String.eqb "slurm" "local") with false;
        change (String.eqb "slurm" "slurm") with true; cbv iota.
      sat_explore.
      all: try (intro Hok; discriminate Hok).
      all: try (enter_loop' Hloop;
                destruct (loop_run_endings _ _ _ _ _ _ _ _ Hloop) as (Halpha & Hend & _);
                destruct (loop_call_quiet _ Halpha)
                  as (_ & _ & Hq3 & Hq4 & Hq5 & Hq6 & Hq7 & _);
                sat_explore).
      all: intro Hok; all_ok Hok; try discriminate Hok.
      all: split; [ discriminate | ].
      all: split;
        [ intros _; do 3 eexists;
          split; [ project; rewrite ?Hq3; pick_in | ];
          split; [ project; rewrite ?Hq4; reflexivity | ];
          split; [ project; rewrite ?Hq5; reflexivity | ];
          split; [ project; rewrite ?Hq6; reflexivity | ];
          project; rewrite ?Hq7; reflexivity
        | ].
      all: try match goal with
               | Hl : last_item _ = inl _ |- _ =>
                   apply last_item_inl in Hl; destruct Hl as [_ ->]
               end.
      all: try (intros msg; discriminate).
      all: destruct (Hend Hok) as [[Ho _] | [Ho _]]; try discriminate Ho.
      all: injection Ho as ->; intros msg; discriminate.
Qed.

End Facts.

(** ** The claims on concrete runs *)

Local Open Scope list_scope.

(** C2 as the specification words it fails: with the simulation name ["foo"]
    the output directory is created before the ValueError. *)
Lemma unknown_simulation_creates_output :
  ~ @rejects_before_any_directory scripted "" (with_simulation two_episodes "foo").
Proof.
  intro H.
  destruct (H Z (scripted_handler four_trials) 0) as [Hnone _].
  vm_compute in Hnone; discriminate Hnone.
Qed.

(** The run with the simulation name ["foo"]: one call, then the ValueError. *)
Lemma unknown_simulation_rejected_witness :
  trace_of (scripted_handler four_trials)
           (main "" (with_simulation two_episodes "foo")) 0
  = [ok (makedirs "test_training" true) tt] /\
  outcome_of (scripted_handler four_trials)
             (main "" (with_simulation two_episodes "foo")) 0
  = Raised (ValueError (unknown_simulation_msg "foo")).
Proof.
  assert (Hcyl : simulation (with_simulation two_episodes "foo")
                 <> "rotatingCylinder2D"%string)
    by (apply String.eqb_neq; reflexivity).
  assert (Hpin : simulation (with_simulation two_episodes "foo")
                 <> "rotatingPinball2D"%string)
    by (apply String.eqb_neq; reflexivity).
  destruct (@unknown_simulation_rejected scripted ""
              (with_simulation two_episodes "foo") Hcyl Hpin
              Z (scripted_handler four_trials) 0) as [H | [x [H _]]].
  - exact H.
  - vm_compute in H; discriminate H.
Defined.

(** C5 as the specification words it fails: the name ['LOCAL'] is neither
    ['local'] nor ['slurm'], yet the local buffer is built. *)
Lemma upper_case_backend_accepted :
  ~ @rejects_backend_by_name scripted "" (set_environment two_episodes "LOCAL").
Proof.
  intro H.
  assert (Hlocal : environment (set_environment two_episodes "LOCAL") <> "local"%string)
    by (apply String.eqb_neq; reflexivity).
  assert (Hslurm : environment (set_environment two_episodes "LOCAL") <> "slurm"%string)
    by (apply String.eqb_neq; reflexivity).
  destruct (H Hlocal Hslurm Z (scripted_handler four_trials) 0) as [Hnone _].
  vm_compute in Hnone; discriminate Hnone.
Qed.

(** The run with the backend name ["cluster"]. *)
Lemma unknown_backend_rejected_witness :
  lower "cluster" <> "local"%string /\
  lower "cluster" <> "slurm"%string /\
  existsb builds_or_launches
    (trace_of (scripted_handler four_trials)
              (main "" (set_environment two_episodes "cluster")) 0) = false /\
  outcome_of (scripted_handler four_trials)
             (main "" (set_environment two_episodes "cluster")) 0
  = Raised (ValueError (unknown_executer_msg "cluster")).
Proof.
  assert (Hlocal : lower (environment (set_environment two_episodes "cluster"))
                   <> "local"%string)
    by (apply String.eqb_neq; reflexivity).
  assert (Hslurm : lower (environment (set_environment two_episodes "cluster"))
                   <> "slurm"%string)
    by (apply String.eqb_neq; reflexivity).
  destruct (@unknown_backend_rejected scripted ""
              (set_environment two_episodes "cluster") Hlocal Hslurm
              Z (scripted_handler four_trials) 0) as [Hnone Hraise].
  split; [ exact Hlocal | ].
  split; [ exact Hslurm | ].
  split; [ exact Hnone | ].
  apply Hraise; vm_compute; reflexivity.
Defined.

(** ['LOCAL'] builds the local buffer and ['Slurm'] the buffer of the
    cluster; both runs return. *)
Lemma backend_case_insensitive_witness :
  lower "LOCAL" = "local"%string /\
  lower "Slurm" = "slurm"%string /\
  main "" (set_environment two_episodes "LOCAL")
  = main "" (set_environment two_episodes "local") /\
  (exists e,
      flat_map buffer_construction
        (trace_of (scripted_handler four_trials)
                  (main "" (set_environment two_episodes "LOCAL")) 0)
      = [LocalBuilt "test_training" e 4 4 60]) /\
  (exists e cfg,
      flat_map buffer_construction
        (trace_of (scripted_handler four_trials)
                  (main "" (set_environment two_episodes "Slurm")) 0)
      = [SlurmBuilt "test_training" e 4 4 cfg 60]) /\
  outcome_of (scripted_handler four_trials)
             (main "" (set_environment two_episodes "LOCAL")) 0
  = Returned tt.
Proof.
  assert (Hsim : contains (keys SIMULATION_ENVIRONMENTS) (simulation two_episodes) = true)
    by reflexivity.
  assert (Hret : outcome_of (scripted_handler four_trials)
                            (main "" (set_environment two_episodes "LOCAL")) 0
                 = Returned tt)
    by (vm_compute; reflexivity).
  assert (Hok : forallb is_ok
                  (trace_of (scripted_handler four_trials)
                            (main "" (set_environment two_episodes "LOCAL")) 0) = true)
    by (vm_compute; reflexivity).
  assert (Hret' : outcome_of (scripted_handler four_trials)
                             (main "" (set_environment two_episodes "Slurm")) 0
                  = Returned tt)
    by (vm_compute; reflexivity).
  assert (Hok' : forallb is_ok
                   (trace_of (scripted_handler four_trials)
                             (main "" (set_environment two_episodes "Slurm")) 0) = true)
    by (vm_compute; reflexivity).
  destruct (@backend_case_insensitive scripted "" two_episodes "LOCAL" "local"
              (or_introl eq_refl) eq_refl Hsim) as (Hsame & _ & Hbuilt).
  destruct (Hbuilt Z (scripted_handler four_trials) 0 _ _ _
              (run_outcome _ _ _ _ Hret) Hok) as (Hlocal & _ & _).
  destruct (Hlocal eq_refl) as (e & _ & He).
  destruct (@backend_case_insensitive scripted "" two_episodes "Slurm" "slurm"
              (or_intror eq_refl) eq_refl Hsim) as (_ & _ & Hbuilt').
  destruct (Hbuilt' Z (scripted_handler four_trials) 0 _ _ _
              (run_outcome _ _ _ _ Hret') Hok') as (_ & Hslurm & _).
  destruct (Hslurm eq_refl) as (e' & ranks & cfg & _ & _ & _ & _ & He').
  split; [ reflexivity | ].
  split; [ reflexivity | ].
  split; [ exact Hsame | ].
  split; [ exists e; exact He | ].
  split; [ exists e', cfg; exact He' | exact Hret ].
Defined.

(** A first fill without any successful trial: the run raises and no update
    is called. *)
Lemma total_fill_failure_surfaced_witness :
  In ([], [], []) (flat_map observed
       (trace_of (scripted_handler no_trial) (main "" two_episodes) 0)) /\
  outcome_of (scripted_handler no_trial) (main "" two_episodes) 0
  = Raised (ZeroDivisionError "division by zero") /\
  flat_map update_args (trace_of (scripted_handler no_trial) (main "" two_episodes) 0)
  = [].
Proof.
  assert (Hin : In (([], [], []) : @batch scripted)
                   (flat_map observed
                      (trace_of (scripted_handler no_trial) (main "" two_episodes) 0)))
    by (vm_compute; left; reflexivity).
  destruct (@total_fill_failure_surfaced scripted "" two_episodes
              Z (scripted_handler no_trial) 0) as [_ Hemp].
  destruct (Hemp _ Hin (or_introl eq_refl)) as [Hraise Hlt].
  split; [ exact Hin | ].
  split; [ exact Hraise | ].
  vm_compute; reflexivity.
Defined.

(** C8 as the specification words it fails: on the empty batch
    [print_statistics] raises instead of logging. *)
Lemma statistics_not_only_logging :
  ~ @purely_observational scripted "" two_episodes.
Proof.
  intros [Hlog _].
  destruct (Hlog [] []) as [msg Hmsg].
  vm_compute in Hmsg; discriminate Hmsg.
Qed.

(** Two action and two reward trajectories: one log call; in the run with
    four trials every update receives the observed batch. *)
Lemma statistics_observational_witness :
  (exists msg, @print_statistics scripted [[1; 3]; [2]] [[7]; [8]]
               = perform (logger_info msg)) /\
  flat_map update_args (trace_of (scripted_handler four_trials) (main "" two_episodes) 0)
  = flat_map observed (trace_of (scripted_handler four_trials) (main "" two_episodes) 0).
Proof.
  assert (Ha : ([[1; 3]; [2]] : list (@Tensor scripted)) <> []) by discriminate.
  assert (Hr : ([[7]; [8]] : list (@Tensor scripted)) <> []) by discriminate.
  destruct (@statistics_observational scripted "" two_episodes _ _ Ha Hr) as [Hmsg _].
  split; [ exact Hmsg | vm_compute; reflexivity ].
Defined.


(** The two episodes of the fresh run. *)
Lemma episode_sequencing_witness :
  outcome_of (scripted_handler four_trials) (main "" two_episodes) 0 = Returned tt /\
  flat_map checkpoint_or_push
    (trace_of (scripted_handler four_trials) (main "" two_episodes) 0)
  = [ CheckpointWrite "test_training/checkpoint_0.pt"; PolicyPush;
      CheckpointWrite "test_training/checkpoint_1.pt"; PolicyPush ] /\
  exists pre buf agent ds t0 t1 msg,
    trace_of (scripted_handler four_trials) (main "" two_episodes) 0
    = pre ++ [ok time t0]
      ++ episodes_sequence "test_training" 2 buf agent 0 ds
      ++ [ok time t1; ok (logger_info msg) tt] /\
    List.length ds = 2%nat /\
    existsb episode_step pre = false.
Proof.
  assert (Hret : outcome_of (scripted_handler four_trials) (main "" two_episodes) 0
                 = Returned tt)
    by (vm_compute; reflexivity).
  pose proof (run_outcome _ _ _ _ Hret) as Hrun.
  destruct (@episode_sequencing scripted "" two_episodes
              Z (scripted_handler four_trials) 0 _ _ _ Hrun) as (_ & Hseq).
  destruct (Hseq eq_refl) as (pre & buf & agent & start & ds & t0 & t1 & msg
                              & Htr & Hstart & Hlen & Hpre & _).
  assert (H0 : start = 0) by (rewrite Hstart; vm_compute; reflexivity).
  subst start.
  split; [ exact Hret | ].
  split; [ vm_compute; reflexivity | ].
  exists pre, buf, agent, ds, t0, t1, msg.
  split; [ exact Htr | split; [ exact Hlen | exact Hpre ] ].
Defined.

(** The resumed run: the reset of the hand-off, then two fills with one
    reset between them. *)
Lemma reset_between_fills_witness :
  outcome_of (scripted_handler four_trials) (main "" resumed) 0 = Returned tt /\
  flat_map fill_reset (trace_of (scripted_handler four_trials) (main "" resumed) 0)
  = [OpReset; OpFill; OpReset; OpFill].
Proof.
  assert (Hret : outcome_of (scripted_handler four_trials) (main "" resumed) 0
                 = Returned tt)
    by (vm_compute; reflexivity).
  pose proof (run_outcome _ _ _ _ Hret) as Hrun.
  destruct (@reset_between_fills scripted "" resumed
              Z (scripted_handler four_trials) 0 _ _ _ Hrun) as (_ & Hfills).
  split; [ exact Hret | ].
  rewrite (Hfills eq_refl); vm_compute; reflexivity.
Defined.

(** [episodes=2]: two checkpoint files and two policy files, indices 0 then 1. *)
Lemma fresh_run_files_witness :
  checkpoint two_episodes = ""%string /\
  flat_map checkpoint_written
    (trace_of (scripted_handler four_trials) (main "" two_episodes) 0)
  = ["test_training/checkpoint_0.pt"%string; "test_training/checkpoint_1.pt"%string] /\
  flat_map policy_saved
    (trace_of (scripted_handler four_trials) (main "" two_episodes) 0)
  = ["test_training/policy_trace_0.pt"%string; "test_training/policy_trace_1.pt"%string].
Proof.
  assert (Hret : outcome_of (scripted_handler four_trials) (main "" two_episodes) 0
                 = Returned tt)
    by (vm_compute; reflexivity).
  pose proof (run_outcome _ _ _ _ Hret) as Hrun.
  split; [ reflexivity | ].
  destruct (@fresh_run_files scripted "" two_episodes eq_refl
              Z (scripted_handler four_trials) 0 _ _ Hrun) as (H1 & H2 & _).
  split; [ exact H1 | exact H2 ].
Defined.

(** The hand-off in the resumed run. *)
Lemma time_window_hand_off_witness :
  existsb is_reset_or_fill
    (trace_of (scripted_handler four_trials) (main "" resumed) 0) = true /\
  exists pre buf e1 e2 e3 t r post,
    trace_of (scripted_handler four_trials) (main "" resumed) 0
    = pre ++ hand_off_window buf (finish resumed) e1 e2 e3 t
      ++ Event (buffer_reset buf) r :: post /\
    existsb is_reset_or_fill (pre ++ hand_off_window buf (finish resumed) e1 e2 e3 t)
    = false.
Proof.
  assert (Hret : outcome_of (scripted_handler four_trials) (main "" resumed) 0
                 = Returned tt)
    by (vm_compute; reflexivity).
  pose proof (run_outcome _ _ _ _ Hret) as Hrun.
  assert (Hsome : existsb is_reset_or_fill
                    (trace_of (scripted_handler four_trials) (main "" resumed) 0) = true)
    by (vm_compute; reflexivity).
  split; [ exact Hsome | ].
  exact (@time_window_hand_off scripted "" resumed
           Z (scripted_handler four_trials) 0 _ _ _ Hrun Hsome).
Defined.

(** ** Beyond the claims, on concrete runs *)

(** The fresh run of two episodes returns: the fifth way of ending. *)
Lemma own_exceptions_witness :
  forallb is_ok (trace_of (scripted_handler four_trials) (main "" two_episodes) 0) = true /\
  own_ending two_episodes
    (trace_of (scripted_handler four_trials) (main "" two_episodes) 0) (Returned tt) /\
  own_ending two_episodes
    (trace_of (scripted_handler no_trial) (main "" two_episodes) 0)
    (Raised (ZeroDivisionError "division by zero")).
Proof.
  assert (Hret : outcome_of (scripted_handler four_trials) (main "" two_episodes) 0
                 = Returned tt)
    by (vm_compute; reflexivity).
  assert (Hok : forallb is_ok
                  (trace_of (scripted_handler four_trials) (main "" two_episodes) 0)
                = true)
    by (vm_compute; reflexivity).
  assert (Hzero : outcome_of (scripted_handler no_trial) (main "" two_episodes) 0
                  = Raised (ZeroDivisionError "division by zero"))
    by (vm_compute; reflexivity).
  assert (Hok' : forallb is_ok
                   (trace_of (scripted_handler no_trial) (main "" two_episodes) 0)
                 = true)
    by (vm_compute; reflexivity).
  split; [ exact Hok | split ].
  - exact (@own_exceptions scripted "" two_episodes Z (scripted_handler four_trials)
             0 _ _ _ (run_outcome _ _ _ _ Hret) Hok).
  - exact (@own_exceptions scripted "" two_episodes Z (scripted_handler no_trial)
             0 _ _ _ (run_outcome _ _ _ _ Hzero) Hok').
Defined.

(** Resuming from a checkpoint without history. *)
Lemma empty_history_stops_witness :
  In [] (flat_map history_answer
           (trace_of (scripted_handler no_history) (main "" resumed) 0)) /\
  outcome_of (scripted_handler no_history) (main "" resumed) 0
  = Raised (IndexError "list index out of range") /\
  flat_map n_fills_written (trace_of (scripted_handler no_history) (main "" resumed) 0)
  = [] /\
  existsb is_reset_or_fill (trace_of (scripted_handler no_history) (main "" resumed) 0)
  = false.
Proof.
  assert (Hin : In [] (flat_map history_answer
                         (trace_of (scripted_handler no_history) (main "" resumed) 0)))
    by (vm_compute; left; reflexivity).
  split; [ exact Hin | ].
  exact (@empty_history_stops scripted "" resumed Z (scripted_handler no_history)
           0 _ _ _ (run_outcome _ _ _ _ eq_refl) Hin).
Defined.

(** The fresh run: dummy policy, then [prepare], both before the first reset. *)
Lemma fresh_initialisation_order_witness :
  checkpoint two_episodes = ""%string /\
  flat_map initialisation
    (trace_of (scripted_handler four_trials) (main "" two_episodes) 0)
  = [DummyPolicy 12 1 "test_training/base" (5 : @Bounds scripted); Prepare] /\
  flat_map initialisation
    (before_first is_reset_or_fill
       (trace_of (scripted_handler four_trials) (main "" two_episodes) 0))
  = flat_map initialisation
      (trace_of (scripted_handler four_trials) (main "" two_episodes) 0).
Proof.
  destruct (@fresh_initialisation_order scripted "" two_episodes eq_refl
              Z (scripted_handler four_trials) 0) as [_ Hreach].
  split; [ reflexivity | ].
  split; [ vm_compute; reflexivity | ].
  apply Hreach; vm_compute; reflexivity.
Defined.

(** The resumed run: load, history, fill counter 3, all before the first
    reset. *)
Lemma resumed_initialisation_order_witness :
  checkpoint resumed <> ""%string /\
  flat_map initialisation
    (trace_of (scripted_handler four_trials) (main "" resumed) 0)
  = [LoadState "test_training/checkpoint_2.pt"; ReadHistory; SetFills 3] /\
  flat_map initialisation
    (before_first is_reset_or_fill
       (trace_of (scripted_handler four_trials) (main "" resumed) 0))
  = flat_map initialisation
      (trace_of (scripted_handler four_trials) (main "" resumed) 0).
Proof.
  assert (Hck : checkpoint resumed <> ""%string)
    by (apply String.eqb_neq; reflexivity).
  destruct (@resumed_initialisation_order scripted "" resumed Hck
              Z (scripted_handler four_trials) 0) as [_ Hreach].
  split; [ exact Hck | ].
  split; [ vm_compute; reflexivity | ].
  apply Hreach; vm_compute; reflexivity.
Defined.

(** The fresh run of two episodes: the clock answers 25 and 45. *)
Lemma training_time_measured_witness :
  outcome_of (scripted_handler four_trials) (main "" two_episodes) 0 = Returned tt /\
  flat_map clock (trace_of (scripted_handler four_trials) (main "" two_episodes) 0)
  = [(25 : @Float scripted); (45 : @Float scripted)] /\
  exists pre t0 t1,
    trace_of (scripted_handler four_trials) (main "" two_episodes) 0
    = pre ++ training_time_tail t0 t1 /\
    flat_map clock pre = [t0].
Proof.
  assert (Hret : outcome_of (scripted_handler four_trials) (main "" two_episodes) 0
                 = Returned tt)
    by (vm_compute; reflexivity).
  destruct (@training_time_measured scripted "" two_episodes
              Z (scripted_handler four_trials) 0 _ _ _ (run_outcome _ _ _ _ Hret))
    as (_ & _ & Htail).
  split; [ exact Hret | ].
  split; [ vm_compute; reflexivity | ].
  exact (Htail eq_refl).
Defined.

(** Three episodes asked, three already recorded. *)
Lemma no_episode_when_done_witness :
  iter finished
  <= starting_episode_of (trace_of (scripted_handler four_trials) (main "" finished) 0) /\
  existsb episode_step (trace_of (scripted_handler four_trials) (main "" finished) 0)
  = false /\
  flat_map fill_reset (trace_of (scripted_handler four_trials) (main "" finished) 0)
  = [OpReset].
Proof.
  assert (Hret : outcome_of (scripted_handler four_trials) (main "" finished) 0
                 = Returned tt)
    by (vm_compute; reflexivity).
  assert (Hle : iter finished
                <= starting_episode_of
                     (trace_of (scripted_handler four_trials) (main "" finished) 0))
    by (vm_compute; discriminate).
  destruct (@no_episode_when_done scripted "" finished
              Z (scripted_handler four_trials) 0 _ _ _ (run_outcome _ _ _ _ Hret) Hle)
    as [Hnone Hreset].
  split; [ exact Hle | ].
  split; [ exact Hnone | exact (Hreset eq_refl) ].
Defined.

(** The resumed run writes the files of the episodes 3 and 4. *)
Lemma run_files_distinct_witness :
  outcome_of (scripted_handler four_trials) (main "" resumed) 0 = Returned tt /\
  flat_map checkpoint_written (trace_of (scripted_handler four_trials) (main "" resumed) 0)
  = ["test_training/checkpoint_3.pt"%string; "test_training/checkpoint_4.pt"%string] /\
  NoDup (flat_map checkpoint_written
           (trace_of (scripted_handler four_trials) (main "" resumed) 0)
         ++ flat_map policy_saved
              (trace_of (scripted_handler four_trials) (main "" resumed) 0)).
Proof.
  assert (Hret : outcome_of (scripted_handler four_trials) (main "" resumed) 0
                 = Returned tt)
    by (vm_compute; reflexivity).
  destruct (@run_files_distinct scripted "" resumed
              Z (scripted_handler four_trials) 0 _ _ (run_outcome _ _ _ _ Hret))
    as (Hckpt & _ & Hnodup).
  split; [ exact Hret | ].
  split; [ rewrite Hckpt; vm_compute; reflexivity | exact Hnodup ].
Defined.

(** The backend ['SLURM']: one buffer, of the cluster, with the configuration
    made from [mpi_ranks]. *)
Lemma buffer_built_as_configured_witness :
  flat_map buffer_construction
    (trace_of (scripted_handler four_trials)
              (main "" (set_environment two_episodes "SLURM")) 0)
  = [SlurmBuilt "test_training" ("cylinder" : @Env scripted) 4 4
                ("config" : @SlurmConfig scripted) 60] /\
  flat_map config_call
    (trace_of (scripted_handler four_trials)
              (main "" (set_environment two_episodes "SLURM")) 0)
  = [(2, 1)] /\
  Forall (buffer_as_configured (set_environment two_episodes "SLURM")
            (trace_of (scripted_handler four_trials)
                      (main "" (set_environment two_episodes "SLURM")) 0))
         (flat_map buffer_construction
            (trace_of (scripted_handler four_trials)
                      (main "" (set_environment two_episodes "SLURM")) 0)).
Proof.
  destruct (@buffer_built_as_configured scripted ""
              (set_environment two_episodes "SLURM")
              Z (scripted_handler four_trials) 0) as (_ & Hall & _).
  split; [ vm_compute; reflexivity | ].
  split; [ vm_compute; reflexivity | exact Hall ].
Defined.
